(** * Landing-page analyzer: the analysis route, the browser provider and the
      client page, embedded in Rocq.

    Sources embedded here:
    - [src/unnamed/part_000]              (module [Part000]: the analyze route
                                           with the page-speed analyzer),
    - [src/src/app/api/analyze/route.ts]  (module [RouteTs]: the analyze route
                                           that launches puppeteer for the CTA
                                           analysis),
    - [src/unnamed/part_001]              (module [Provider]:
                                           [createPuppeteerBrowser]),
    - [src/src/app/page.tsx]              (module [Page]: the handlers of the
                                           [Home] component).

    Asynchronous JavaScript is modelled by explicit effects: a route handler
    is a computation in a small exception-and-trace monad, the client page is
    a machine whose steps are the synchronous segments between two awaits. *)

From Stdlib Require Import String List ZArith QArith Qround Bool Lia DecimalString.
Import ListNotations.
Open Scope string_scope.
Open Scope Z_scope.
Open Scope list_scope.

(** ** JavaScript values, as far as the code inspects them

    The values are those of JSON, and [undefined].  The code tests numbers
    for being zero and copies them, nothing else: integers stand for
    them. *)

#[local] Unset Elimination Schemes.
Inductive JsVal : Type :=
| JUndefined
| JNull
| JBool (b : bool)
| JNum (n : Z)
| JStr (s : string)
| JArr (items : list JsVal)
| JObj (fields : list (string * JsVal)).
#[local] Set Elimination Schemes.

(** [!!v]: the falsy values are undefined, null, false, 0 and the empty
    string (NaN is not a JSON value). *)
Definition truthy (v : JsVal) : bool :=
  match v with
  | JUndefined | JNull => false
  | JBool b => b
  | JNum n => negb (n =? 0)
  | JStr s => negb (s =? "")%string
  | JArr _ | JObj _ => true
  end.

(** [a || b] *)
Definition js_or (a b : JsVal) : JsVal := if truthy a then a else b.

(** [v === 'literal'] *)
Definition strict_eq_str (v : JsVal) (lit : string) : bool :=
  match v with
  | JStr s => (s =? lit)%string
  | _ => false
  end.

(** The value of property [k] among [fs], the last one when the name
    occurs more than once (as [JSON.parse] has it), [found] when it does
    not occur. *)
Fixpoint find_last (k : string) (fs : list (string * JsVal)) (found : JsVal) : JsVal :=
  match fs with
  | [] => found
  | (k', v) :: rest => find_last k rest (if (k' =? k)%string then v else found)
  end.

Definition lookup_field (k : string) (fs : list (string * JsVal)) : JsVal :=
  find_last k fs JUndefined.

(** [v.k] on a value that is neither null nor undefined: a missing property
    and a property of a primitive both read as undefined. *)
Definition get (v : JsVal) (k : string) : JsVal :=
  match v with
  | JObj fs => lookup_field k fs
  | _ => JUndefined
  end.

(** [v == null]: reading a property of such a value throws a TypeError. *)
Definition nullish (v : JsVal) : bool :=
  match v with
  | JUndefined | JNull => true
  | _ => false
  end.

(** [String(v)], which is what [new Error(v)] stores as its message. *)
Fixpoint js_to_string (v : JsVal) : string :=
  match v with
  | JUndefined => "undefined"
  | JNull => "null"
  | JBool true => "true"
  | JBool false => "false"
  | JNum n => NilZero.string_of_int (Z.to_int n)
  | JStr s => s
  | JArr items =>
      String.concat ","
        (map (fun i => match i with
                       | JUndefined | JNull => ""
                       | _ => js_to_string i
                       end) items)
  | JObj _ => "[object Object]"
  end.

(** [Math.round]: the nearest integer, halves towards plus infinity. *)
Definition Math_round (q : Q) : Z := Qfloor (q + (1 # 2))%Q.

(** [scores.reduce((sum, score) => sum + score, 0)] *)
Definition reduce_sum (scores : list Z) : Z :=
  fold_left (fun sum score => sum + score) scores 0.

(** [scores.length > 0 ? Math.round(sum / scores.length) : 0].  The scores
    are integers and at most four of them are averaged, so the quotient of
    the floating-point division is the exact rational up to an error far
    below the distance to the next half: the exact quotient is used. *)
Definition overall (scores : list Z) : Z :=
  if (0 <? Z.of_nat (length scores))
  then Math_round (inject_Z (reduce_sum scores) / inject_Z (Z.of_nat (length scores)))%Q
  else 0.

(** ** Effects: exceptions and a trace of calls to collaborators *)

(** A thrown value: an [Error] with its message, or anything else. *)
Inductive Thrown : Type :=
| ErrorObject (message : string)
| NonError (v : JsVal).

Inductive Completion (A : Type) : Type :=
| Normal (a : A)
| Throw (e : Thrown).
Arguments Normal {A} a.
Arguments Throw {A} e.

Section Effects.
Context {E : Type}.

(** A computation over mutable variables of type [S]: it yields a
    completion, the variables as it leaves them (assignments made before
    a throw stay made) and the calls it made, in order. *)
Definition M (S A : Type) : Type := S -> (Completion A * S * list E)%type.

Definition ret {S A} (a : A) : M S A := fun s => (Normal a, s, []).

Definition throw {S A} (e : Thrown) : M S A := fun s => (Throw e, s, []).

Definition bind {S A B} (m : M S A) (f : A -> M S B) : M S B :=
  fun s =>
    match m s with
    | (Normal a, s', t) => let '(r, s'', t') := f a s' in (r, s'', t ++ t')
    | (Throw e, s', t) => (Throw e, s', t)
    end.

Definition get_state {S} : M S S := fun s => (Normal s, s, []).

Definition modify {S} (f : S -> S) : M S unit := fun s => (Normal tt, f s, []).

(** A synchronous expression that returns or throws and calls nobody. *)
Definition lift {S A} (c : Completion A) : M S A := fun s => (c, s, []).

(** A call to a collaborator: recorded, then completes as the world
    says. *)
Definition call {S A} (ev : E) (result : Completion A) : M S A :=
  fun s => (result, s, [ev]).

(** [try { m } catch (error) { h error }] *)
Definition try_catch {S A} (m : M S A) (h : Thrown -> M S A) : M S A :=
  fun s =>
    match m s with
    | (Normal a, s', t) => (Normal a, s', t)
    | (Throw e, s', t) => let '(r, s'', t') := h e s' in (r, s'', t ++ t')
    end.

(** [try { m } finally { fin }]: [fin] runs on both exits; when it throws,
    its exception replaces the completion of [m]. *)
Definition try_finally {S A} (m : M S A) (fin : M S unit) : M S A :=
  fun s =>
    let '(c, s', t) := m s in
    match fin s' with
    | (Normal _, s'', t') => (c, s'', t ++ t')
    | (Throw e, s'', t') => (Throw e, s'', t ++ t')
    end.

(** A block that declares its own variables, initialised to [init]. *)
Definition with_locals {S L A} (init : L) (m : M L A) : M S A :=
  fun s => let '(c, _, t) := m init in (c, s, t).

(** Running a handler that has no variables of its own. *)
Definition run {A} (m : M unit A) : Completion A * list E :=
  let '(c, _, t) := m tt in (c, t).
End Effects.

Declare Scope js_scope.
Delimit Scope js_scope with js.
Notation "x <- m ;; k" := (bind m (fun x => k))
  (at level 61, m at next level, right associativity) : js_scope.
Notation "m ;;; k" := (bind m (fun _ => k))
  (at level 61, right associativity) : js_scope.

(** ** The report built by the analyze route *)

(** [metrics: { lcp, fcp, cls, tbt, si }] *)
Record Metrics : Type := {
  lcp : Q; fcp : Q; cls : Q; tbt : Q; si : Q
}.

Record PageLoadSpeed : Type := {
  ps_score : Z;
  ps_grade : string;
  ps_metrics : Metrics;
  ps_lighthouseScore : Z;
  ps_issues : list string;
  ps_recommendations : list string;
  ps_loadTime : Q
}.

Record FontUsage : Type := {
  fu_score : Z;
  fu_fontFamilies : list string;
  fu_fontCount : Z;
  fu_issues : list string;
  fu_recommendations : list string
}.

Record ImageOptimization : Type := {
  io_score : Z;
  io_totalImages : Z;
  io_modernFormats : Z;
  io_withAltText : Z;
  io_appropriatelySized : Z;
  io_issues : list string;
  io_recommendations : list string;
  io_details : JsVal
}.

(** A call-to-action as the CTA analyzer returns it; [cta_rest] stands for
    the properties the route does not copy. *)
Record CTA : Type := {
  cta_text : string;
  cta_type : string;
  cta_isAboveFold : bool;
  cta_actionStrength : string;
  cta_urgency : string;
  cta_visibility : string;
  cta_context : string;
  cta_rest : JsVal
}.

(** What [analyzeCTA] resolves to. *)
Record CTAResult : Type := {
  cr_score : Z;
  cr_ctas : list CTA;
  cr_primaryCTA : option CTA;
  cr_issues : list string;
  cr_recommendations : list string
}.

(** The seven properties of a CTA that the report keeps. *)
Record ReportCTA : Type := {
  rc_text : string;
  rc_type : string;
  rc_isAboveFold : bool;
  rc_actionStrength : string;
  rc_urgency : string;
  rc_visibility : string;
  rc_context : string
}.

(** The five properties of the primary CTA that the report keeps. *)
Record ReportPrimaryCTA : Type := {
  pc_text : string;
  pc_type : string;
  pc_actionStrength : string;
  pc_visibility : string;
  pc_context : string
}.

(** [ctaAnalysis]; [ca_primaryCTA = None] is the property absent or
    undefined. *)
Record CtaAnalysis : Type := {
  ca_score : Z;
  ca_ctas : list ReportCTA;
  ca_primaryCTA : option ReportPrimaryCTA;
  ca_issues : list string;
  ca_recommendations : list string
}.

Record WhitespaceAssessment : Type := {
  wa_score : Z;
  wa_issues : list string
}.

Record SocialProof : Type := {
  sp_score : Z;
  sp_elements : list string;
  sp_issues : list string
}.

(** The platform's URL object, as far as the route reads it. *)
Record URL : Type := {
  protocol : string;
  href : string          (* what [toString()] returns *)
}.

(** The request body after [const { url, component } = body]; a property
    the body lacks is [JUndefined].  [forceRescan] is what the page sends
    along; the route does not destructure it. *)
Record Body : Type := {
  url : JsVal;
  component : JsVal;
  forceRescan : JsVal
}.

(** [request.json()] followed by the destructuring: a throw when the body
    is not JSON or is null, so that one of the two throws. *)
Record NextRequest : Type := {
  json : Completion Body
}.

(** [!['http:', 'https:'].includes(p)] *)
Definition unsupported_protocol (p : string) : bool :=
  negb (existsb (String.eqb p) ["http:"; "https:"]).

(** The calls a route makes to its collaborators. *)
Inductive Call : Type :=
| CallAnalyzePageSpeed (target : string)
| CallAnalyzeFontUsage (target : string)
| CallAnalyzeImageOptimization (target : string)
| CallAnalyzeCTA (input : string)
| CallPuppeteerLaunch
| CallNewPage
| CallSetViewport (width height : Z)
| CallGoto (target : string)
| CallContent
| CallPageClose
| CallBrowserClose.

(** What [NextResponse.json(body, { status })] carries. *)
Inductive ResponseBody (R : Type) : Type :=
| SuccessBody (success : bool) (analysis : R) (message : string)
| ErrorBody (error : string).
Arguments SuccessBody {R} success analysis message.
Arguments ErrorBody {R} error.

Record NextResponse (R : Type) : Type := {
  body : ResponseBody R;
  status : Z
}.
Arguments body {R} _.
Arguments status {R} _.

(** [NextResponse.json(b)] answers 200 unless a status is given. *)
Definition NextResponse_json {R} (b : ResponseBody R) (st : option Z) : NextResponse R :=
  {| body := b; status := match st with Some s => s | None => 200 end |}.

(** The property names of the JSON object a response carries. *)
Definition body_keys {R} (b : ResponseBody R) : list string :=
  match b with
  | SuccessBody _ _ _ => ["success"; "analysis"; "message"]
  | ErrorBody _ => ["error"]
  end.

(** [ctaResult.ctas.map(cta => ({ text: cta.text, ... }))] *)
Definition report_cta (cta : CTA) : ReportCTA :=
  {| rc_text := cta_text cta;
     rc_type := cta_type cta;
     rc_isAboveFold := cta_isAboveFold cta;
     rc_actionStrength := cta_actionStrength cta;
     rc_urgency := cta_urgency cta;
     rc_visibility := cta_visibility cta;
     rc_context := cta_context cta |}.

(** [ctaResult.primaryCTA ? { text: ..., ... } : undefined] *)
Definition report_primary (p : option CTA) : option ReportPrimaryCTA :=
  match p with
  | Some cta =>
      Some {| pc_text := cta_text cta;
              pc_type := cta_type cta;
              pc_actionStrength := cta_actionStrength cta;
              pc_visibility := cta_visibility cta;
              pc_context := cta_context cta |}
  | None => None
  end.

(** The [ctaAnalysis] section written when the CTA analysis returned. *)
Definition cta_section (ctaResult : CTAResult) : CtaAnalysis :=
  {| ca_score := cr_score ctaResult;
     ca_ctas := map report_cta (cr_ctas ctaResult);
     ca_primaryCTA := report_primary (cr_primaryCTA ctaResult);
     ca_issues := cr_issues ctaResult;
     ca_recommendations := cr_recommendations ctaResult |}.

(** The [ctaAnalysis] section written by the catch block. *)
Definition cta_failed : CtaAnalysis :=
  {| ca_score := 0; ca_ctas := []; ca_primaryCTA := None;
     ca_issues := ["CTA analysis failed due to error"];
     ca_recommendations := [] |}.

(** The sections of the initial result object that both routes share. *)
Definition fontUsage_default : FontUsage :=
  {| fu_score := 0; fu_fontFamilies := []; fu_fontCount := 0;
     fu_issues := []; fu_recommendations := [] |}.

Definition imageOptimization_default : ImageOptimization :=
  {| io_score := 0; io_totalImages := 0; io_modernFormats := 0;
     io_withAltText := 0; io_appropriatelySized := 0;
     io_issues := []; io_recommendations := []; io_details := JObj [] |}.

Definition ctaAnalysis_default : CtaAnalysis :=
  {| ca_score := 0; ca_ctas := []; ca_primaryCTA := None;
     ca_issues := []; ca_recommendations := [] |}.

Definition whitespaceAssessment_default : WhitespaceAssessment :=
  {| wa_score := 0; wa_issues := [] |}.

Definition socialProof_default : SocialProof :=
  {| sp_score := 0; sp_elements := []; sp_issues := [] |}.

(** The font section as the route copies it from the analyzer's result. *)
Definition font_section (r : FontUsage) : FontUsage :=
  {| fu_score := fu_score r;
     fu_fontFamilies := fu_fontFamilies r;
     fu_fontCount := fu_fontCount r;
     fu_issues := fu_issues r;
     fu_recommendations := fu_recommendations r |}.

(** The image section as the route copies it from the analyzer's result. *)
Definition image_section (r : ImageOptimization) : ImageOptimization :=
  {| io_score := io_score r;
     io_totalImages := io_totalImages r;
     io_modernFormats := io_modernFormats r;
     io_withAltText := io_withAltText r;
     io_appropriatelySized := io_appropriatelySized r;
     io_issues := io_issues r;
     io_recommendations := io_recommendations r;
     io_details := io_details r |}.

(** [(componentName) => !component || component === 'all' ||
     component === componentName] *)
Definition shouldRun (component : JsVal) (componentName : string) : bool :=
  negb (truthy component)
  || strict_eq_str component "all"
  || strict_eq_str component componentName.

(** ** [src/unnamed/part_000]: the analyze route with four analyzers *)

Module Part000.

Record AnalysisResult : Type := {
  r_url : string;
  pageLoadSpeed : PageLoadSpeed;
  fontUsage : FontUsage;
  imageOptimization : ImageOptimization;
  ctaAnalysis : CtaAnalysis;
  whitespaceAssessment : WhitespaceAssessment;
  socialProof : SocialProof;
  overallScore : Z;
  r_status : string
}.

(** The platform and the analyzer libraries the route imports: each call
    either returns or throws. *)
Record World : Type := {
  URL_new : JsVal -> Completion URL;
  analyzePageSpeed : string -> Completion PageLoadSpeed;
  analyzeFontUsage : string -> Completion FontUsage;
  analyzeImageOptimization : string -> Completion ImageOptimization;
  analyzeCTA : string -> Completion CTAResult
}.

Definition metrics_zero : Metrics :=
  {| lcp := 0; fcp := 0; cls := 0; tbt := 0; si := 0 |}.

Definition pageLoadSpeed_default : PageLoadSpeed :=
  {| ps_score := 0; ps_grade := "F"; ps_metrics := metrics_zero;
     ps_lighthouseScore := 0; ps_issues := []; ps_recommendations := [];
     ps_loadTime := 0 |}.

(** The section written by the catch block of the page-speed analysis. *)
Definition pageLoadSpeed_failed : PageLoadSpeed :=
  {| ps_score := 0; ps_grade := "F"; ps_metrics := metrics_zero;
     ps_lighthouseScore := 0;
     ps_issues := ["Page speed analysis failed due to error"];
     ps_recommendations := [];
     ps_loadTime := 0 |}.

Definition speed_section (r : PageLoadSpeed) : PageLoadSpeed :=
  {| ps_score := ps_score r;
     ps_grade := ps_grade r;
     ps_metrics := ps_metrics r;
     ps_lighthouseScore := ps_lighthouseScore r;
     ps_issues := ps_issues r;
     ps_recommendations := ps_recommendations r;
     ps_loadTime := ps_loadTime r |}.

(** [let analysisResult: any = { url: validatedUrl.toString(), ... }] *)
Definition initial_result (validatedUrl : URL) : AnalysisResult :=
  {| r_url := href validatedUrl;
     pageLoadSpeed := pageLoadSpeed_default;
     fontUsage := fontUsage_default;
     imageOptimization := imageOptimization_default;
     ctaAnalysis := ctaAnalysis_default;
     whitespaceAssessment := whitespaceAssessment_default;
     socialProof := socialProof_default;
     overallScore := 0;
     r_status := "completed" |}.

Definition set_pageLoadSpeed (v : PageLoadSpeed) (a : AnalysisResult) :=
  {| r_url := r_url a; pageLoadSpeed := v; fontUsage := fontUsage a;
     imageOptimization := imageOptimization a; ctaAnalysis := ctaAnalysis a;
     whitespaceAssessment := whitespaceAssessment a;
     socialProof := socialProof a; overallScore := overallScore a;
     r_status := r_status a |}.

Definition set_fontUsage (v : FontUsage) (a : AnalysisResult) :=
  {| r_url := r_url a; pageLoadSpeed := pageLoadSpeed a; fontUsage := v;
     imageOptimization := imageOptimization a; ctaAnalysis := ctaAnalysis a;
     whitespaceAssessment := whitespaceAssessment a;
     socialProof := socialProof a; overallScore := overallScore a;
     r_status := r_status a |}.

Definition set_imageOptimization (v : ImageOptimization) (a : AnalysisResult) :=
  {| r_url := r_url a; pageLoadSpeed := pageLoadSpeed a;
     fontUsage := fontUsage a; imageOptimization := v;
     ctaAnalysis := ctaAnalysis a;
     whitespaceAssessment := whitespaceAssessment a;
     socialProof := socialProof a; overallScore := overallScore a;
     r_status := r_status a |}.

Definition set_ctaAnalysis (v : CtaAnalysis) (a : AnalysisResult) :=
  {| r_url := r_url a; pageLoadSpeed := pageLoadSpeed a;
     fontUsage := fontUsage a; imageOptimization := imageOptimization a;
     ctaAnalysis := v;
     whitespaceAssessment := whitespaceAssessment a;
     socialProof := socialProof a; overallScore := overallScore a;
     r_status := r_status a |}.

Definition set_overallScore (v : Z) (a : AnalysisResult) :=
  {| r_url := r_url a; pageLoadSpeed := pageLoadSpeed a;
     fontUsage := fontUsage a; imageOptimization := imageOptimization a;
     ctaAnalysis := ctaAnalysis a;
     whitespaceAssessment := whitespaceAssessment a;
     socialProof := socialProof a; overallScore := v;
     r_status := r_status a |}.

(** The two mutable objects of the handler: [analysisResult] and
    [scores]. *)
Definition Acc : Type := (AnalysisResult * list Z)%type.

(** [analysisResult.section = ...] *)
Definition assign (f : AnalysisResult -> AnalysisResult) : M (E := Call) Acc unit :=
  modify (fun acc => (f (fst acc), snd acc)).

(** [scores.push(score)] *)
Definition push (score : Z) : M (E := Call) Acc unit :=
  modify (fun acc => (fst acc, snd acc ++ [score])).

Local Open Scope js_scope.

(** Lines 28-42: [new URL(url)] and the protocol test, inside their own
    try block; the right injection is the 400 response of the catch. *)
Definition validate (w : World) (u : JsVal)
  : M (E := Call) unit (URL + NextResponse AnalysisResult) :=
  try_catch
    (validatedUrl <- lift (URL_new w u) ;;
     if unsupported_protocol (protocol validatedUrl)
     then throw (ErrorObject "Invalid protocol")
     else ret (inl validatedUrl))
    (fun _ => ret (inr (NextResponse_json (ErrorBody "Invalid URL format") (Some 400)))).

(** Lines 70-97. *)
Definition speed_block (w : World) (component : JsVal) (target : string)
  : M (E := Call) Acc unit :=
  if shouldRun component "speed" || shouldRun component "pageSpeed" then
    try_catch
      (pageSpeedResult <- call (CallAnalyzePageSpeed target) (analyzePageSpeed w target) ;;
       assign (set_pageLoadSpeed (speed_section pageSpeedResult)) ;;;
       push (ps_score pageSpeedResult))
      (fun _ => assign (set_pageLoadSpeed pageLoadSpeed_failed))
  else ret tt.

(** Lines 99-110: no try block around the call. *)
Definition font_block (w : World) (component : JsVal) (target : string)
  : M (E := Call) Acc unit :=
  if shouldRun component "font" then
    fontUsageResult <- call (CallAnalyzeFontUsage target) (analyzeFontUsage w target) ;;
    assign (set_fontUsage (font_section fontUsageResult)) ;;;
    push (fu_score fontUsageResult)
  else ret tt.

(** Lines 112-126: no try block around the call. *)
Definition image_block (w : World) (component : JsVal) (target : string)
  : M (E := Call) Acc unit :=
  if shouldRun component "image" then
    imageOptimizationResult <-
      call (CallAnalyzeImageOptimization target) (analyzeImageOptimization w target) ;;
    assign (set_imageOptimization (image_section imageOptimizationResult)) ;;;
    push (io_score imageOptimizationResult)
  else ret tt.

(** Lines 128-167. *)
Definition cta_block (w : World) (component : JsVal) (target : string)
  : M (E := Call) Acc unit :=
  if shouldRun component "cta" then
    try_catch
      (ctaResult <- call (CallAnalyzeCTA target) (analyzeCTA w target) ;;
       assign (set_ctaAnalysis (cta_section ctaResult)) ;;;
       push (cr_score ctaResult))
      (fun _ => assign (set_ctaAnalysis cta_failed))
  else ret tt.

(** Lines 65-179: the analysis blocks, the overall score and the success
    response. *)
Definition analyze (w : World) (component : JsVal) (target : string)
  : M (E := Call) Acc (NextResponse AnalysisResult) :=
  speed_block w component target ;;;
  font_block w component target ;;;
  image_block w component target ;;;
  cta_block w component target ;;;
  acc <- get_state ;;
  assign (set_overallScore (overall (snd acc))) ;;;
  acc <- get_state ;;
  ret (NextResponse_json
         (SuccessBody true (fst acc) "Analysis completed successfully.")
         None).

(** The handler: the body of the outer try block, then its catch. *)
Definition POST_handler (w : World) (request : NextRequest)
  : M (E := Call) unit (NextResponse AnalysisResult) :=
  try_catch
    (b <- lift (json request) ;;
     if negb (truthy (url b))
     then ret (NextResponse_json (ErrorBody "URL is required") (Some 400))
     else
       v <- validate w (url b) ;;
       match v with
       | inr response => ret response
       | inl validatedUrl =>
           with_locals (initial_result validatedUrl, [])
                       (analyze w (component b) (href validatedUrl))
       end)
    (fun _ => ret (NextResponse_json (ErrorBody "Internal server error") (Some 500))).

(** One request served: how the handler completes and whom it called. *)
Definition POST (w : World) (request : NextRequest)
  : Completion (NextResponse AnalysisResult) * list Call :=
  run (POST_handler w request).

End Part000.

(** ** [src/src/app/api/analyze/route.ts]: the analyze route with three
       analyzers, which renders the page itself for the CTA analysis *)

Module RouteTs.

(** [pageLoadSpeed: { score: 0, metrics: {} }] *)
Record PageLoadSpeedStub : Type := {
  pls_score : Z;
  pls_metrics : JsVal
}.

Record AnalysisResult : Type := {
  r_url : string;
  pageLoadSpeed : PageLoadSpeedStub;
  fontUsage : FontUsage;
  imageOptimization : ImageOptimization;
  ctaAnalysis : CtaAnalysis;
  whitespaceAssessment : WhitespaceAssessment;
  socialProof : SocialProof;
  overallScore : Z;
  r_status : string
}.

(** The platform, the analyzer libraries and puppeteer. *)
Record World : Type := {
  URL_new : JsVal -> Completion URL;
  analyzeFontUsage : string -> Completion FontUsage;
  analyzeImageOptimization : string -> Completion ImageOptimization;
  analyzeCTA : string -> Completion CTAResult;
  puppeteer_launch : Completion unit;
  browser_newPage : Completion unit;
  page_setViewport : Completion unit;
  page_goto : string -> Completion unit;
  page_content : Completion string;
  page_close : Completion unit;
  browser_close : Completion unit
}.

Definition initial_result (validatedUrl : URL) : AnalysisResult :=
  {| r_url := href validatedUrl;
     pageLoadSpeed := {| pls_score := 0; pls_metrics := JObj [] |};
     fontUsage := fontUsage_default;
     imageOptimization := imageOptimization_default;
     ctaAnalysis := ctaAnalysis_default;
     whitespaceAssessment := whitespaceAssessment_default;
     socialProof := socialProof_default;
     overallScore := 0;
     r_status := "completed" |}.

Definition set_fontUsage (v : FontUsage) (a : AnalysisResult) :=
  {| r_url := r_url a; pageLoadSpeed := pageLoadSpeed a; fontUsage := v;
     imageOptimization := imageOptimization a; ctaAnalysis := ctaAnalysis a;
     whitespaceAssessment := whitespaceAssessment a;
     socialProof := socialProof a; overallScore := overallScore a;
     r_status := r_status a |}.

Definition set_imageOptimization (v : ImageOptimization) (a : AnalysisResult) :=
  {| r_url := r_url a; pageLoadSpeed := pageLoadSpeed a;
     fontUsage := fontUsage a; imageOptimization := v;
     ctaAnalysis := ctaAnalysis a;
     whitespaceAssessment := whitespaceAssessment a;
     socialProof := socialProof a; overallScore := overallScore a;
     r_status := r_status a |}.

Definition set_ctaAnalysis (v : CtaAnalysis) (a : AnalysisResult) :=
  {| r_url := r_url a; pageLoadSpeed := pageLoadSpeed a;
     fontUsage := fontUsage a; imageOptimization := imageOptimization a;
     ctaAnalysis := v;
     whitespaceAssessment := whitespaceAssessment a;
     socialProof := socialProof a; overallScore := overallScore a;
     r_status := r_status a |}.

Definition set_overallScore (v : Z) (a : AnalysisResult) :=
  {| r_url := r_url a; pageLoadSpeed := pageLoadSpeed a;
     fontUsage := fontUsage a; imageOptimization := imageOptimization a;
     ctaAnalysis := ctaAnalysis a;
     whitespaceAssessment := whitespaceAssessment a;
     socialProof := socialProof a; overallScore := v;
     r_status := r_status a |}.

Definition Acc : Type := (AnalysisResult * list Z)%type.

Definition assign (f : AnalysisResult -> AnalysisResult) : M (E := Call) Acc unit :=
  modify (fun acc => (f (fst acc), snd acc)).

Definition push (score : Z) : M (E := Call) Acc unit :=
  modify (fun acc => (fst acc, snd acc ++ [score])).

Local Open Scope js_scope.

(** Lines 27-41. *)
Definition validate (w : World) (u : JsVal)
  : M (E := Call) unit (URL + NextResponse AnalysisResult) :=
  try_catch
    (validatedUrl <- lift (URL_new w u) ;;
     if unsupported_protocol (protocol validatedUrl)
     then throw (ErrorObject "Invalid protocol")
     else ret (inl validatedUrl))
    (fun _ => ret (inr (NextResponse_json (ErrorBody "Invalid URL format") (Some 400)))).

(** Lines 61-72. *)
Definition font_block (w : World) (component : JsVal) (target : string)
  : M (E := Call) Acc unit :=
  if shouldRun component "font" then
    fontUsageResult <- call (CallAnalyzeFontUsage target) (analyzeFontUsage w target) ;;
    assign (set_fontUsage (font_section fontUsageResult)) ;;;
    push (fu_score fontUsageResult)
  else ret tt.

(** Lines 74-88. *)
Definition image_block (w : World) (component : JsVal) (target : string)
  : M (E := Call) Acc unit :=
  if shouldRun component "image" then
    imageOptimizationResult <-
      call (CallAnalyzeImageOptimization target) (analyzeImageOptimization w target) ;;
    assign (set_imageOptimization (image_section imageOptimizationResult)) ;;;
    push (io_score imageOptimizationResult)
  else ret tt.

(** Lines 90-147: the browser is launched before the try block;
    [page.close()] is its last statement, after the section and the score
    have been written; [browser.close()] is the finally block. *)
Definition cta_block (w : World) (component : JsVal) (target : string)
  : M (E := Call) Acc unit :=
  if shouldRun component "cta" then
    call CallPuppeteerLaunch (puppeteer_launch w) ;;;
    try_finally
      (try_catch
         (call CallNewPage (browser_newPage w) ;;;
          call (CallSetViewport 1920 1080) (page_setViewport w) ;;;
          call (CallGoto target) (page_goto w target) ;;;
          htmlContent <- call CallContent (page_content w) ;;
          ctaResult <- call (CallAnalyzeCTA htmlContent) (analyzeCTA w htmlContent) ;;
          assign (set_ctaAnalysis (cta_section ctaResult)) ;;;
          push (cr_score ctaResult) ;;;
          call CallPageClose (page_close w))
         (fun _ => assign (set_ctaAnalysis cta_failed)))
      (call CallBrowserClose (browser_close w))
  else ret tt.

(** Lines 56-159. *)
Definition analyze (w : World) (component : JsVal) (target : string)
  : M (E := Call) Acc (NextResponse AnalysisResult) :=
  font_block w component target ;;;
  image_block w component target ;;;
  cta_block w component target ;;;
  acc <- get_state ;;
  assign (set_overallScore (overall (snd acc))) ;;;
  acc <- get_state ;;
  ret (NextResponse_json
         (SuccessBody true (fst acc) "Analysis completed successfully.")
         None).

Definition POST_handler (w : World) (request : NextRequest)
  : M (E := Call) unit (NextResponse AnalysisResult) :=
  try_catch
    (b <- lift (json request) ;;
     if negb (truthy (url b))
     then ret (NextResponse_json (ErrorBody "URL is required") (Some 400))
     else
       v <- validate w (url b) ;;
       match v with
       | inr response => ret response
       | inl validatedUrl =>
           with_locals (initial_result validatedUrl, [])
                       (analyze w (component b) (href validatedUrl))
       end)
    (fun _ => ret (NextResponse_json (ErrorBody "Internal server error") (Some 500))).

Definition POST (w : World) (request : NextRequest)
  : Completion (NextResponse AnalysisResult) * list Call :=
  run (POST_handler w request).

End RouteTs.

(** ** [src/unnamed/part_001]: the browser session provider *)

Module Provider.

(** [process.env]: a variable is a string or is not set. *)
Record ProcessEnv : Type := {
  NODE_ENV : option string;
  BLESS_KEY : option string
}.

(** The argument of [createPuppeteerBrowser]; [None] is a property left
    out, which takes its default [false]. *)
Record Options : Type := {
  forceBrowserless : option bool;
  blockConsentModals : option bool
}.

(** A browser as puppeteer hands it out. *)
Inductive Browser : Type := BrowserHandle (id : nat).

Inductive PCall : Type :=
| CallImportPuppeteer
| CallExecutablePath
| CallConnect (browserWSEndpoint : string) (viewportWidth viewportHeight : Z)
| CallLaunch (args : list string) (executablePath : option string) (headless : bool).

(** puppeteer-core, the dynamic import of puppeteer and its
    [executablePath()]. *)
Record World : Type := {
  puppeteer_connect : string -> Completion Browser;
  puppeteer_launch : option string -> Completion Browser;
  import_puppeteer : Completion unit;
  executablePath : Completion string
}.

(** The module variable [localPuppeteer]: loaded or not. *)
Definition ModuleState : Type := bool.

Local Open Scope js_scope.

Definition getLocalExecutablePath (w : World) : M (E := PCall) ModuleState (option string) :=
  localPuppeteer <- get_state ;;
  if negb localPuppeteer then
    try_catch
      (call CallImportPuppeteer (import_puppeteer w) ;;;
       modify (fun _ => true) ;;;
       p <- call CallExecutablePath (executablePath w) ;;
       ret (Some p))
      (fun _ => ret None)
  else
    p <- call CallExecutablePath (executablePath w) ;;
    ret (Some p).

(** A string of the environment used as a condition. *)
Definition set_and_nonempty (v : option string) : bool :=
  match v with
  | Some s => negb (s =? "")%string
  | None => false
  end.

Definition isProduction (env : ProcessEnv) : bool :=
  match NODE_ENV env with
  | Some s => (s =? "production")%string
  | None => false
  end.

Definition or_default (o : option bool) : bool :=
  match o with Some b => b | None => false end.

(** [encodeURIComponent(JSON.stringify({ blockConsentModals: true }))] *)
Definition encoded_launchConfig : string :=
  "%7B%22blockConsentModals%22%3Atrue%7D".

Definition browserWSEndpoint (browserlessKey : string) (block : bool) : string :=
  ("wss://production-sfo.browserless.io?token=" ++ browserlessKey
     ++ "&headless=false&stealth=true&blockAds=true"
     ++ (if block then "&launch=" ++ encoded_launchConfig else ""))%string.

(** [error instanceof Error ? error.message : 'Unknown error'] *)
Definition message_of (e : Thrown) : string :=
  match e with
  | ErrorObject m => m
  | NonError _ => "Unknown error"
  end.

Definition local_args : list string :=
  ["--no-sandbox"; "--disable-setuid-sandbox"; "--disable-dev-shm-usage";
   "--disable-gpu"].

(** The condition of line 27. *)
Definition selects_remote (env : ProcessEnv) (options : Options) : bool :=
  (isProduction env || or_default (forceBrowserless options))
  && set_and_nonempty (BLESS_KEY env).

Definition createPuppeteerBrowser (w : World) (env : ProcessEnv) (options : Options)
  : M (E := PCall) ModuleState Browser :=
  if selects_remote env options then
    try_catch
      (let endpoint :=
         browserWSEndpoint (match BLESS_KEY env with Some k => k | None => "" end)
                           (or_default (blockConsentModals options)) in
       call (CallConnect endpoint 1920 1080) (puppeteer_connect w endpoint))
      (fun error =>
         throw (ErrorObject ("Browserless connection failed: " ++ message_of error)%string))
  else
    path <- getLocalExecutablePath w ;;
    call (CallLaunch local_args path true) (puppeteer_launch w path).

End Provider.

(** ** [src/src/app/page.tsx]: the handlers of the [Home] component *)

Module Page.

Record AnalysisState : Type := {
  result : JsVal;
  isLoading : bool;
  error : option string;
  showEmailInput : bool;
  currentUrl : option string;
  fromCache : JsVal;
  emailSubmitted : bool;
  emailSentToAPI : bool;
  screenshotUrl : JsVal;
  analysisId : JsVal;
  emailLoading : bool
}.

(** The component's state: [analysisState] and the ref
    [pendingEmailRef.current]. *)
Record Home : Type := {
  analysisState : AnalysisState;
  pendingEmailRef : option string
}.

(** The requests the page sends. *)
Inductive Fetch : Type :=
| FetchScreenshot (target : string)
| FetchAnalyze (target : string) (forceRescan : bool)
| FetchEmail (email : string) (id : JsVal).

(** A response as the page reads it: [response.ok] and what
    [response.json()] resolves to or rejects with. *)
Record FetchResponse : Type := {
  ok : bool;
  response_json : Completion JsVal
}.

(** [useState] initial value, also what [handleReset] sets. *)
Definition initial_state : AnalysisState :=
  {| result := JNull; isLoading := false; error := None;
     showEmailInput := false; currentUrl := None; fromCache := JBool false;
     emailSubmitted := false; emailSentToAPI := false;
     screenshotUrl := JNull; analysisId := JNull; emailLoading := false |}.

Definition initial_home : Home :=
  {| analysisState := initial_state; pendingEmailRef := None |}.

(** [setAnalysisState(updater)] *)
Definition setAnalysisState (f : AnalysisState -> AnalysisState) : M (E := Fetch) Home unit :=
  modify (fun h => {| analysisState := f (analysisState h);
                      pendingEmailRef := pendingEmailRef h |}).

(** [pendingEmailRef.current = v] *)
Definition set_pendingEmailRef (v : option string) : M (E := Fetch) Home unit :=
  modify (fun h => {| analysisState := analysisState h; pendingEmailRef := v |}).

(** [v.k], throwing on null and undefined. *)
Definition prop (v : JsVal) (k : string) : Completion JsVal :=
  if nullish v then Throw (ErrorObject "Cannot read properties of null or undefined")
  else Normal (get v k).

(** [error instanceof Error ? error.message : 'An unexpected error
    occurred'] *)
Definition message_of (e : Thrown) : string :=
  match e with
  | ErrorObject m => m
  | NonError _ => "An unexpected error occurred"
  end.

(** A string or null used as a condition. *)
Definition nonempty (v : option string) : bool :=
  match v with
  | Some s => negb (s =? "")%string
  | None => false
  end.

Local Open Scope js_scope.

(** Lines 48-60. *)
Definition loading_state (target : string) : AnalysisState :=
  {| result := JNull; isLoading := true; error := None;
     showEmailInput := true; currentUrl := Some target;
     fromCache := JBool false; emailSubmitted := false;
     emailSentToAPI := false; screenshotUrl := JNull; analysisId := JNull;
     emailLoading := false |}.

(** Lines 47-90: [handleAnalyze] up to its first await: the state is
    replaced and the two requests leave. *)
Definition handleAnalyze (target : string) (force : bool) : M (E := Fetch) Home unit :=
  setAnalysisState (fun _ => loading_state target) ;;;
  call (FetchScreenshot target) (Normal tt) ;;;
  call (FetchAnalyze target force) (Normal tt).

(** Lines 73-76: [{ ...prev, screenshotUrl: v }] *)
Definition with_screenshotUrl (v : JsVal) (prev : AnalysisState) : AnalysisState :=
  {| result := result prev; isLoading := isLoading prev; error := error prev;
     showEmailInput := showEmailInput prev; currentUrl := currentUrl prev;
     fromCache := fromCache prev; emailSubmitted := emailSubmitted prev;
     emailSentToAPI := emailSentToAPI prev; screenshotUrl := v;
     analysisId := analysisId prev; emailLoading := emailLoading prev |}.

(** Lines 70-81: the [.then] callback of the screenshot request and its
    [.catch], which swallows every failure. *)
Definition screenshot_settled (r : Completion FetchResponse) : M (E := Fetch) Home unit :=
  try_catch
    (response <- lift r ;;
     if ok response then
       screenshotResult <- lift (response_json response) ;;
       screenshot <- lift (prop screenshotResult "screenshot") ;;
       let shot := if nullish screenshot then JUndefined else get screenshot "url" in
       setAnalysisState (with_screenshotUrl (js_or shot JNull))
     else ret tt)
    (fun _ => ret tt).

(** Lines 104-112. *)
Definition with_result (res analysisData : JsVal) (prev : AnalysisState) : AnalysisState :=
  {| result := analysisData; isLoading := false; error := None;
     showEmailInput := showEmailInput prev; currentUrl := currentUrl prev;
     fromCache := js_or (get res "fromCache") (JBool false);
     emailSubmitted := emailSubmitted prev;
     emailSentToAPI := emailSentToAPI prev;
     screenshotUrl := js_or (get analysisData "screenshotUrl") (screenshotUrl prev);
     analysisId := js_or (get res "analysisId") JNull;
     emailLoading := emailLoading prev |}.

(** Lines 120-125. *)
Definition with_error (msg : string) (prev : AnalysisState) : AnalysisState :=
  {| result := JNull; isLoading := false; error := Some msg;
     showEmailInput := showEmailInput prev; currentUrl := currentUrl prev;
     fromCache := fromCache prev; emailSubmitted := emailSubmitted prev;
     emailSentToAPI := emailSentToAPI prev;
     screenshotUrl := screenshotUrl prev; analysisId := analysisId prev;
     emailLoading := emailLoading prev |}.

(** Lines 143-151: [callEmailAPI] up to its await: the request leaves. *)
Definition callEmailAPI (email : string) (id : JsVal) : M (E := Fetch) Home unit :=
  call (FetchEmail email id) (Normal tt).

(** Lines 93-126: [handleAnalyze] from the moment the analyze request
    settles up to the await of [callEmailAPI] (or to its end). *)
Definition analysis_settled (r : Completion FetchResponse) : M (E := Fetch) Home unit :=
  try_catch
    (response <- lift r ;;
     if negb (ok response) then
       errorData <- lift (response_json response) ;;
       e <- lift (prop errorData "error") ;;
       throw (ErrorObject (js_to_string (js_or e (JStr "Analysis failed"))))
     else
       res <- lift (response_json response) ;;
       a <- lift (prop res "analysis") ;;
       let analysisData := js_or a res in
       setAnalysisState (with_result res analysisData) ;;;
       h <- get_state ;;
       if nonempty (pendingEmailRef h) && truthy (get res "analysisId") then
         callEmailAPI (match pendingEmailRef h with Some e => e | None => "" end)
                      (get res "analysisId")
       else ret tt)
    (fun error => setAnalysisState (with_error (message_of error))).

(** Lines 130-134. *)
Definition with_emailSubmitted (prev : AnalysisState) : AnalysisState :=
  {| result := result prev; isLoading := isLoading prev; error := error prev;
     showEmailInput := showEmailInput prev; currentUrl := currentUrl prev;
     fromCache := fromCache prev; emailSubmitted := true;
     emailSentToAPI := emailSentToAPI prev;
     screenshotUrl := screenshotUrl prev; analysisId := analysisId prev;
     emailLoading := true |}.

(** Lines 129-141, up to the await of [callEmailAPI]; the handler reads
    [analysisState] as of the render that created it. *)
Definition handleEmailSubmit (email : string) : M (E := Fetch) Home unit :=
  rendered <- get_state ;;
  setAnalysisState with_emailSubmitted ;;;
  if truthy (analysisId (analysisState rendered)) then
    callEmailAPI email (analysisId (analysisState rendered))
  else
    set_pendingEmailRef (Some email).

(** Lines 158-169: both the success and the catch branch of
    [callEmailAPI] set the same two fields. *)
Definition with_emailSent (prev : AnalysisState) : AnalysisState :=
  {| result := result prev; isLoading := isLoading prev; error := error prev;
     showEmailInput := showEmailInput prev; currentUrl := currentUrl prev;
     fromCache := fromCache prev; emailSubmitted := emailSubmitted prev;
     emailSentToAPI := true;
     screenshotUrl := screenshotUrl prev; analysisId := analysisId prev;
     emailLoading := false |}.

(** Who awaits [callEmailAPI]. *)
Inductive EmailCaller : Type :=
| FromHandleAnalyze      (* line 116, followed by line 117 *)
| FromHandleEmailSubmit. (* line 137 *)

(** Lines 153-170: [callEmailAPI] from the moment the email request
    settles, followed by what its caller does next. *)
Definition email_settled (caller : EmailCaller) (r : Completion FetchResponse)
  : M (E := Fetch) Home unit :=
  try_catch
    (response <- lift r ;;
     if negb (ok response) then
       errorData <- lift (response_json response) ;;
       e <- lift (prop errorData "error") ;;
       throw (ErrorObject (js_to_string (js_or e (JStr "Failed to send email"))))
     else setAnalysisState with_emailSent)
    (fun _ => setAnalysisState with_emailSent) ;;;
  match caller with
  | FromHandleAnalyze => set_pendingEmailRef None
  | FromHandleEmailSubmit => ret tt
  end.

(** Lines 173-188. *)
Definition handleReset : M (E := Fetch) Home unit :=
  set_pendingEmailRef None ;;;
  setAnalysisState (fun _ => initial_state).

(** Lines 190-194. *)
Definition handleForceRescan : M (E := Fetch) Home unit :=
  rendered <- get_state ;;
  match currentUrl (analysisState rendered) with
  | Some u => if negb (u =? "")%string then handleAnalyze u true else ret tt
  | None => ret tt
  end.

(** What can happen to the page: a handler is called, or a request it
    sent settles. *)
Inductive Event : Type :=
| Analyze (target : string) (force : bool)
| ScreenshotSettled (r : Completion FetchResponse)
| AnalysisSettled (r : Completion FetchResponse)
| EmailSubmit (email : string)
| EmailSettled (caller : EmailCaller) (r : Completion FetchResponse)
| Reset
| ForceRescan.

Definition handler (ev : Event) : M (E := Fetch) Home unit :=
  match ev with
  | Analyze target force => handleAnalyze target force
  | ScreenshotSettled r => screenshot_settled r
  | AnalysisSettled r => analysis_settled r
  | EmailSubmit email => handleEmailSubmit email
  | EmailSettled caller r => email_settled caller r
  | Reset => handleReset
  | ForceRescan => handleForceRescan
  end.

(** One event: the new state and the requests sent. *)
Definition step (h : Home) (ev : Event) : Home * list Fetch :=
  let '(_, h', sent) := handler ev h in (h', sent).

(** A sequence of events, from the left; the requests accumulate. *)
Fixpoint steps (h : Home) (evs : list Event) : Home * list Fetch :=
  match evs with
  | [] => (h, [])
  | ev :: rest =>
      let '(h', sent) := step h ev in
      let '(h'', sent') := steps h' rest in
      (h'', sent ++ sent')
  end.

End Page.

(** ** The analyzers of [part_000], by kind *)

Inductive AnalyzerKind : Type := Speed | Font | Image | Cta.

Definition all_kinds : list AnalyzerKind := [Speed; Font; Image; Cta].


(** The condition that guards the block of each analyzer in [part_000]. *)
Definition selected (component : JsVal) (k : AnalyzerKind) : bool :=
  match k with
  | Speed => shouldRun component "speed" || shouldRun component "pageSpeed"
  | Font => shouldRun component "font"
  | Image => shouldRun component "image"
  | Cta => shouldRun component "cta"
  end.

(** The block of each analyzer in [part_000]. *)
Definition block (w : Part000.World) (component : JsVal) (target : string)
           (k : AnalyzerKind) : M (E := Call) Part000.Acc unit :=
  match k with
  | Speed => Part000.speed_block w component target
  | Font => Part000.font_block w component target
  | Image => Part000.image_block w component target
  | Cta => Part000.cta_block w component target
  end.

(** The call by which the route invokes an analyzer. *)
Definition call_of (k : AnalyzerKind) (target : string) : Call :=
  match k with
  | Speed => CallAnalyzePageSpeed target
  | Font => CallAnalyzeFontUsage target
  | Image => CallAnalyzeImageOptimization target
  | Cta => CallAnalyzeCTA target
  end.

(** The score an analyzer returns, or what it throws. *)
Definition analyzer_score (w : Part000.World) (k : AnalyzerKind) (target : string)
  : Completion Z :=
  match k with
  | Speed => match Part000.analyzePageSpeed w target with
             | Normal r => Normal (ps_score r) | Throw e => Throw e end
  | Font => match Part000.analyzeFontUsage w target with
            | Normal r => Normal (fu_score r) | Throw e => Throw e end
  | Image => match Part000.analyzeImageOptimization w target with
             | Normal r => Normal (io_score r) | Throw e => Throw e end
  | Cta => match Part000.analyzeCTA w target with
           | Normal r => Normal (cr_score r) | Throw e => Throw e end
  end.

(** The section of the report that belongs to an analyzer, reduced to its
    score and its issues. *)
Definition section_score (a : Part000.AnalysisResult) (k : AnalyzerKind) : Z :=
  match k with
  | Speed => ps_score (Part000.pageLoadSpeed a)
  | Font => fu_score (Part000.fontUsage a)
  | Image => io_score (Part000.imageOptimization a)
  | Cta => ca_score (Part000.ctaAnalysis a)
  end.

Definition section_issues (a : Part000.AnalysisResult) (k : AnalyzerKind) : list string :=
  match k with
  | Speed => ps_issues (Part000.pageLoadSpeed a)
  | Font => fu_issues (Part000.fontUsage a)
  | Image => io_issues (Part000.imageOptimization a)
  | Cta => ca_issues (Part000.ctaAnalysis a)
  end.

(** ** The outcome of an analyzer, in the words of the specification *)

Inductive AnalyzerOutcome : Type :=
| Success (score : Z)
| Failed (reason : Thrown)
| Skipped.

(** What one run makes of an analyzer: skipped when the component filter
    does not select it, otherwise what its invocation gives. *)
Definition outcome (w : Part000.World) (component : JsVal) (target : string)
           (k : AnalyzerKind) : AnalyzerOutcome :=
  if selected component k then
    match analyzer_score w k target with
    | Normal s => Success s
    | Throw e => Failed e
    end
  else Skipped.

Definition success_scores (outs : list AnalyzerOutcome) : list Z :=
  flat_map (fun o => match o with Success s => [s] | _ => [] end) outs.

(** The specification's formula: round(mean of the scores in Success
    state), and 0 when no analyzer succeeded. *)
Definition spec_overallScore (outs : list AnalyzerOutcome) : Z :=
  match success_scores outs with
  | [] => 0
  | s :: rest =>
      Math_round (inject_Z (fold_right Z.add 0%Z (s :: rest))
                  / inject_Z (Z.of_nat (length (s :: rest))))%Q
  end.


(** An unselected analyzer leaves its section of the report as it was. *)
Definition same_section (k : AnalyzerKind) (a a0 : Part000.AnalysisResult) : Prop :=
  match k with
  | Speed => Part000.pageLoadSpeed a = Part000.pageLoadSpeed a0
  | Font => Part000.fontUsage a = Part000.fontUsage a0
  | Image => Part000.imageOptimization a = Part000.imageOptimization a0
  | Cta => Part000.ctaAnalysis a = Part000.ctaAnalysis a0
  end.

(** The analyzer calls of a run of [part_000] that no exception cuts
    short: one per selected analyzer, in the order of the blocks. *)
Definition calls_of_run (component : JsVal) (target : string) : list Call :=
  flat_map (fun k => if selected component k then [call_of k target] else [])
           all_kinds.

(** ** What the specification says of a second submission

    The second submission of a URL is served from the cache: its response
    is the first one again, it is flagged [fromCache], and no collaborator
    (analyzer, browser) is called. *)
Definition served_from_cache {R}
           (first second : Completion (NextResponse R) * list Call) : Prop :=
  fst second = fst first
  /\ (exists resp, fst second = Normal resp /\ In "fromCache" (body_keys (body resp)))
  /\ snd second = [].

(** The properties the specification lists for a success response. *)
Definition spec_success_keys : list string :=
  ["success"; "analysis"; "fromCache"; "analysisId"].

(** ** The response as the page receives it *)

(** The JSON object of a response body; [enc] serialises the report. *)
Definition body_json {R} (enc : R -> JsVal) (b : ResponseBody R) : JsVal :=
  match b with
  | SuccessBody success analysis message =>
      JObj [("success", JBool success); ("analysis", enc analysis);
            ("message", JStr message)]
  | ErrorBody error => JObj [("error", JStr error)]
  end.

(** [response.ok] is a status from 200 to 299. *)
Definition received {R} (enc : R -> JsVal) (resp : NextResponse R) : Page.FetchResponse :=
  {| Page.ok := (200 <=? status resp) && (status resp <=? 299);
     Page.response_json := Normal (body_json enc (body resp)) |}.

(** ** Concrete inputs *)

(** The platform's URL parser on the two URLs of the examples; the
    examples parse nothing else, and everything else is made to throw. *)
Definition URL_new_sample (v : JsVal) : Completion URL :=
  match v with
  | JStr "https://example.com/" =>
      Normal {| protocol := "https:"; href := "https://example.com/" |}
  | JStr "ftp://example.com/" =>
      Normal {| protocol := "ftp:"; href := "ftp://example.com/" |}
  | _ => Throw (ErrorObject "Invalid URL")
  end.

Definition speed80 : PageLoadSpeed :=
  {| ps_score := 80; ps_grade := "B"; ps_metrics := Part000.metrics_zero;
     ps_lighthouseScore := 80; ps_issues := []; ps_recommendations := [];
     ps_loadTime := 1 |}.

Definition font60 : FontUsage :=
  {| fu_score := 60; fu_fontFamilies := ["Inter"]; fu_fontCount := 1;
     fu_issues := []; fu_recommendations := [] |}.

Definition image90 : ImageOptimization :=
  {| io_score := 90; io_totalImages := 1; io_modernFormats := 1;
     io_withAltText := 1; io_appropriatelySized := 1;
     io_issues := []; io_recommendations := []; io_details := JObj [] |}.

Definition cta70 : CTAResult :=
  {| cr_score := 70; cr_ctas := []; cr_primaryCTA := None;
     cr_issues := []; cr_recommendations := [] |}.

Definition boom : Thrown := ErrorObject "boom".

(** Every analyzer returns: scores 80, 60, 90, 70. *)
Definition world_all_succeed : Part000.World :=
  {| Part000.URL_new := URL_new_sample;
     Part000.analyzePageSpeed := fun _ => Normal speed80;
     Part000.analyzeFontUsage := fun _ => Normal font60;
     Part000.analyzeImageOptimization := fun _ => Normal image90;
     Part000.analyzeCTA := fun _ => Normal cta70 |}.

(** The font analyzer throws, the other three return. *)
Definition world_font_throws : Part000.World :=
  {| Part000.URL_new := URL_new_sample;
     Part000.analyzePageSpeed := fun _ => Normal speed80;
     Part000.analyzeFontUsage := fun _ => Throw boom;
     Part000.analyzeImageOptimization := fun _ => Normal image90;
     Part000.analyzeCTA := fun _ => Normal cta70 |}.

(** Every analyzer throws. *)
Definition world_all_throw : Part000.World :=
  {| Part000.URL_new := URL_new_sample;
     Part000.analyzePageSpeed := fun _ => Throw boom;
     Part000.analyzeFontUsage := fun _ => Throw boom;
     Part000.analyzeImageOptimization := fun _ => Throw boom;
     Part000.analyzeCTA := fun _ => Throw boom |}.

(** Only the two analyzers inside try blocks throw. *)
Definition world_speed_cta_throw : Part000.World :=
  {| Part000.URL_new := URL_new_sample;
     Part000.analyzePageSpeed := fun _ => Throw boom;
     Part000.analyzeFontUsage := fun _ => Normal font60;
     Part000.analyzeImageOptimization := fun _ => Normal image90;
     Part000.analyzeCTA := fun _ => Throw boom |}.

(** The world of [route.ts] in which everything returns. *)
Definition legacy_world_all_succeed : RouteTs.World :=
  {| RouteTs.URL_new := URL_new_sample;
     RouteTs.analyzeFontUsage := fun _ => Normal font60;
     RouteTs.analyzeImageOptimization := fun _ => Normal image90;
     RouteTs.analyzeCTA := fun _ => Normal cta70;
     RouteTs.puppeteer_launch := Normal tt;
     RouteTs.browser_newPage := Normal tt;
     RouteTs.page_setViewport := Normal tt;
     RouteTs.page_goto := fun _ => Normal tt;
     RouteTs.page_content := Normal "<html></html>";
     RouteTs.page_close := Normal tt;
     RouteTs.browser_close := Normal tt |}.

Definition request_of (u c f : JsVal) : NextRequest :=
  {| json := Normal {| url := u; component := c; forceRescan := f |} |}.

Definition example_com : JsVal := JStr "https://example.com/".

(** [{ url: 'https://example.com/' }] *)
Definition request_example : NextRequest :=
  request_of example_com JUndefined JUndefined.

(** ** Notions used to state the properties of the page *)



(** A 2xx response whose body is the JSON value [v]. *)
Definition ok_response (v : JsVal) : Completion Page.FetchResponse :=
  Normal {| Page.ok := true; Page.response_json := Normal v |}.

(** The ways in which the screenshot request can fail: the request is
    rejected, the status is not 2xx, the body is not JSON, or the body is
    null. *)
Inductive screenshot_failure : Completion Page.FetchResponse -> Prop :=
| rejected e : screenshot_failure (Throw e)
| not_ok j : screenshot_failure (Normal {| Page.ok := false; Page.response_json := j |})
| bad_json e :
    screenshot_failure (Normal {| Page.ok := true; Page.response_json := Throw e |})
| null_body v :
    nullish v = true ->
    screenshot_failure (Normal {| Page.ok := true; Page.response_json := Normal v |}).

(** An analysis response whose report carries the screenshot [shot]. *)
Definition analysis_with_screenshot (shot : string) : JsVal :=
  JObj [("success", JBool true);
        ("analysis", JObj [("overallScore", JNum 75); ("screenshotUrl", JStr shot)]);
        ("analysisId", JStr "id-1")].

(** A screenshot response [{ screenshot: { url } }]. *)
Definition screenshot_body (shot : string) : JsVal :=
  JObj [("screenshot", JObj [("url", JStr shot)])].

(** A cached report that carries no [analysisId]. *)
Definition cached_without_id : JsVal :=
  JObj [("success", JBool true);
        ("analysis", JObj [("overallScore", JNum 75)]);
        ("fromCache", JBool true)].

(** A fresh report with its [analysisId]. *)
Definition fresh_with_id (id : string) : JsVal :=
  JObj [("success", JBool true);
        ("analysis", JObj [("overallScore", JNum 75)]);
        ("analysisId", JStr id)].

(** ** Notions used to state the properties of the provider *)



(** The remote service refuses the connection; a local launch would
    succeed. *)
Definition world_remote_down : Provider.World :=
  {| Provider.puppeteer_connect := fun _ => Throw (ErrorObject "ECONNREFUSED");
     Provider.puppeteer_launch := fun _ => Normal (Provider.BrowserHandle 1);
     Provider.import_puppeteer := Normal tt;
     Provider.executablePath := Normal "/usr/bin/chromium" |}.


Definition env_no_key : Provider.ProcessEnv :=
  {| Provider.NODE_ENV := Some "production"; Provider.BLESS_KEY := None |}.

Definition no_options : Provider.Options :=
  {| Provider.forceBrowserless := None; Provider.blockConsentModals := None |}.

(** The world of [route.ts] in which every analyzer throws. *)
Definition legacy_world_all_throw : RouteTs.World :=
  {| RouteTs.URL_new := URL_new_sample;
     RouteTs.analyzeFontUsage := fun _ => Throw boom;
     RouteTs.analyzeImageOptimization := fun _ => Throw boom;
     RouteTs.analyzeCTA := fun _ => Throw boom;
     RouteTs.puppeteer_launch := Normal tt;
     RouteTs.browser_newPage := Normal tt;
     RouteTs.page_setViewport := Normal tt;
     RouteTs.page_goto := fun _ => Normal tt;
     RouteTs.page_content := Normal "<html></html>";
     RouteTs.page_close := Normal tt;
     RouteTs.browser_close := Normal tt |}.

(** The 500 response of the outer catch block. *)
Definition internal_server_error {R} : NextResponse R :=
  {| body := ErrorBody "Internal server error"; status := 500 |}.

(** Whether the URL validation of the routes lets a parsed URL through. *)
Definition valid_url (parsed : Completion URL) : bool :=
  match parsed with
  | Normal u => negb (unsupported_protocol (protocol u))
  | Throw _ => false
  end.

(** ** The responses of the analyze route

    What a route, whose parser is [parse], answers to [request] when
    [served] is what its handler gives: always a response, of one of four
    shapes, the success shape with exactly the properties [success],
    [analysis] and [message]; which shape depends on where the request
    fails. *)
Definition response_contract {R} (request : NextRequest) (parse : JsVal -> Completion URL)
           (served : Completion (NextResponse R) * list Call) : Prop :=
  exists resp,
    fst served = Normal resp
    /\ ((status resp = 200
         /\ (exists a, body resp = SuccessBody true a "Analysis completed successfully.")
         /\ body_keys (body resp) = ["success"; "analysis"; "message"])
        \/ (status resp = 400 /\ body resp = ErrorBody "URL is required")
        \/ (status resp = 400 /\ body resp = ErrorBody "Invalid URL format")
        \/ (status resp = 500 /\ body resp = ErrorBody "Internal server error"))
    /\ (forall e, json request = Throw e -> status resp = 500)
    /\ (forall b, json request = Normal b -> truthy (url b) = false ->
          status resp = 400 /\ body resp = ErrorBody "URL is required")
    /\ (forall b, json request = Normal b -> truthy (url b) = true ->
          valid_url (parse (url b)) = false ->
          status resp = 400 /\ body resp = ErrorBody "Invalid URL format")
    /\ (forall b, json request = Normal b -> truthy (url b) = true ->
          valid_url (parse (url b)) = true ->
          status resp = 200 \/ status resp = 500).


(** The world of [route.ts] in which only [page.close()] throws. *)
Definition legacy_world_close_throws : RouteTs.World :=
  {| RouteTs.URL_new := URL_new_sample;
     RouteTs.analyzeFontUsage := fun _ => Normal font60;
     RouteTs.analyzeImageOptimization := fun _ => Normal image90;
     RouteTs.analyzeCTA := fun _ => Normal cta70;
     RouteTs.puppeteer_launch := Normal tt;
     RouteTs.browser_newPage := Normal tt;
     RouteTs.page_setViewport := Normal tt;
     RouteTs.page_goto := fun _ => Normal tt;
     RouteTs.page_content := Normal "<html></html>";
     RouteTs.page_close := Throw boom;
     RouteTs.browser_close := Normal tt |}.

(** * Properties *)

(** ** The overall score *)

Lemma reduce_sum_from (l : list Z) (a : Z) :
  fold_left (fun sum score => sum + score) l a = a + fold_right Z.add 0 l.
Proof.
  revert a; induction l as [|x l IH]; intros a; simpl.
  - lia.
  - rewrite IH. lia.
Qed.

Lemma reduce_sum_fold_right (l : list Z) : reduce_sum l = fold_right Z.add 0 l.
Proof. unfold reduce_sum. rewrite reduce_sum_from. lia. Qed.

(** The score the route computes from the scores it collected is the
    specification's formula applied to the outcomes they come from. *)
Lemma overall_spec (outs : list AnalyzerOutcome) :
  overall (success_scores outs) = spec_overallScore outs.
Proof.
  unfold overall, spec_overallScore.
  destruct (success_scores outs) as [|s rest] eqn:E.
  - reflexivity.
  - rewrite reduce_sum_fold_right.
    replace (0 <? Z.of_nat (length (s :: rest))) with true; [reflexivity|].
    symmetry. apply Z.ltb_lt. simpl length. lia.
Qed.

(** [Math.round] of a quotient of integers, in integer arithmetic. *)
Lemma Math_round_div (s n : Z) :
  0 < n -> Math_round (inject_Z s / inject_Z n)%Q = (2 * s + n) / (2 * n).
Proof.
  intros Hn. unfold Math_round.
  rewrite Zdiv_Qdiv. apply Qfloor_comp.
  rewrite inject_Z_plus, !inject_Z_mult.
  assert (Hq : ~ (inject_Z n == 0)%Q).
  { intros H. unfold Qeq in H. simpl in H. lia. }
  field. exact Hq.
Qed.

(** The rounded mean is the integer nearest to the mean, a half going up:
    [m <= sum / n + 1/2 < m + 1], multiplied out by [2 * n]. *)
Lemma overall_nearest (scores : list Z) :
  scores <> [] ->
  let n := Z.of_nat (length scores) in
  let m := overall scores in
  2 * n * m <= 2 * reduce_sum scores + n < 2 * n * (m + 1).
Proof.
  intros Hne n m.
  assert (Hn : 0 < n).
  { subst n. destruct scores; [congruence | simpl length; lia]. }
  subst m. unfold overall. fold n.
  replace (0 <? n) with true by (symmetry; apply Z.ltb_lt; exact Hn).
  rewrite Math_round_div by exact Hn.
  pose proof (Z.mul_div_le (2 * reduce_sum scores + n) (2 * n) ltac:(lia)).
  pose proof (Z.mul_succ_div_gt (2 * reduce_sum scores + n) (2 * n) ltac:(lia)).
  lia.
Qed.

(** Scores between 0 and 100 give an overall score between 0 and 100. *)
Lemma overall_range (scores : list Z) :
  Forall (fun s => 0 <= s <= 100) scores -> 0 <= overall scores <= 100.
Proof.
  intros Hall.
  destruct scores as [|s0 rest] eqn:E; [cbv; split; discriminate|].
  rewrite <- E in *.
  assert (Hne : scores <> []) by (subst; discriminate).
  pose proof (overall_nearest scores Hne) as Hn. cbv zeta in Hn.
  assert (Hsum : 0 <= reduce_sum scores <= 100 * Z.of_nat (length scores)).
  { rewrite reduce_sum_fold_right. clear -Hall.
    induction Hall as [|x l Hx _ IH]; simpl fold_right; simpl length; lia. }
  assert (Hlen : 0 < Z.of_nat (length scores)) by (subst; simpl length; lia).
  nia.
Qed.

(** The specification's example: 80, 60, 90 and 70 average to 75. *)
Lemma overall_example : overall [80; 60; 90; 70] = 75.
Proof. reflexivity. Qed.

(** A half rounds up: the mean of 80 and 81 is reported as 81. *)
Lemma overall_half_up : overall [80; 81] = 81.
Proof. reflexivity. Qed.

(** ** The analyze route of [part_000] *)

(** A request that passes both validations runs the analysis blocks; an
    exception that leaves them becomes the 500 response. *)
Lemma POST_valid (w : Part000.World) (request : NextRequest) (b : Body) (u : URL) :
  json request = Normal b ->
  truthy (url b) = true ->
  Part000.URL_new w (url b) = Normal u ->
  unsupported_protocol (protocol u) = false ->
  Part000.POST w request =
    let '(c, _, t) :=
      Part000.analyze w (component b) (href u) (Part000.initial_result u, []) in
    (match c with
     | Normal r => Normal r
     | Throw _ => Normal (NextResponse_json (ErrorBody "Internal server error") (Some 500))
     end, t).
Proof.
  intros Hj Ht Hu Hp.
  unfold Part000.POST, Part000.POST_handler, run, try_catch, bind, lift,
    Part000.validate, try_catch, bind, lift, with_locals.
  rewrite Hj, Ht. simpl. rewrite Hu, Hp. simpl.
  destruct (Part000.analyze w (component b) (href u) (Part000.initial_result u, []))
    as [[c s] t].
  destruct c; simpl; rewrite ?app_nil_r; reflexivity.
Qed.

(** The same for [route.ts]. *)
Lemma legacy_POST_valid (w : RouteTs.World) (request : NextRequest) (b : Body) (u : URL) :
  json request = Normal b ->
  truthy (url b) = true ->
  RouteTs.URL_new w (url b) = Normal u ->
  unsupported_protocol (protocol u) = false ->
  RouteTs.POST w request =
    let '(c, _, t) :=
      RouteTs.analyze w (component b) (href u) (RouteTs.initial_result u, []) in
    (match c with
     | Normal r => Normal r
     | Throw _ => Normal (NextResponse_json (ErrorBody "Internal server error") (Some 500))
     end, t).
Proof.
  intros Hj Ht Hu Hp.
  unfold RouteTs.POST, RouteTs.POST_handler, run, try_catch, bind, lift,
    RouteTs.validate, try_catch, bind, lift, with_locals.
  rewrite Hj, Ht. simpl. rewrite Hu, Hp. simpl.
  destruct (RouteTs.analyze w (component b) (href u) (RouteTs.initial_result u, []))
    as [[c s] t].
  destruct c; simpl; rewrite ?app_nil_r; reflexivity.
Qed.

(** A body that cannot be read is answered 500, and nobody is called. *)
Lemma POST_unreadable_body (w : Part000.World) (w' : RouteTs.World)
      (request : NextRequest) (e : Thrown) :
  json request = Throw e ->
  Part000.POST w request = (Normal internal_server_error, [])
  /\ RouteTs.POST w' request = (Normal internal_server_error, []).
Proof.
  intros Hj.
  unfold Part000.POST, Part000.POST_handler, RouteTs.POST, RouteTs.POST_handler,
    run, try_catch, bind, lift.
  rewrite Hj. split; reflexivity.
Qed.

(** A request without a URL is answered 400 before anything is parsed or
    called. *)
Lemma POST_url_required (w : Part000.World) (w' : RouteTs.World)
      (request : NextRequest) (b : Body) :
  json request = Normal b ->
  truthy (url b) = false ->
  Part000.POST w request =
    (Normal {| body := ErrorBody "URL is required"; status := 400 |}, [])
  /\ RouteTs.POST w' request =
    (Normal {| body := ErrorBody "URL is required"; status := 400 |}, []).
Proof.
  intros Hj Ht.
  unfold Part000.POST, Part000.POST_handler, RouteTs.POST, RouteTs.POST_handler,
    run, try_catch, bind, lift.
  rewrite Hj, Ht. split; reflexivity.
Qed.

(** A URL that does not parse, or whose protocol is neither http: nor
    https:, is answered 400 before anything is called. *)
Lemma POST_invalid_url (w : Part000.World) (request : NextRequest) (b : Body) :
  json request = Normal b ->
  truthy (url b) = true ->
  valid_url (Part000.URL_new w (url b)) = false ->
  Part000.POST w request =
    (Normal {| body := ErrorBody "Invalid URL format"; status := 400 |}, []).
Proof.
  intros Hj Ht Hv.
  unfold Part000.POST, Part000.POST_handler, run, try_catch, bind, lift,
    Part000.validate, try_catch, bind, lift.
  rewrite Hj, Ht. simpl. unfold valid_url in Hv.
  destruct (Part000.URL_new w (url b)) as [u|e]; simpl.
  - apply negb_false_iff in Hv. rewrite Hv. reflexivity.
  - reflexivity.
Qed.

Lemma legacy_POST_invalid_url (w : RouteTs.World) (request : NextRequest) (b : Body) :
  json request = Normal b ->
  truthy (url b) = true ->
  valid_url (RouteTs.URL_new w (url b)) = false ->
  RouteTs.POST w request =
    (Normal {| body := ErrorBody "Invalid URL format"; status := 400 |}, []).
Proof.
  intros Hj Ht Hv.
  unfold RouteTs.POST, RouteTs.POST_handler, run, try_catch, bind, lift,
    RouteTs.validate, try_catch, bind, lift.
  rewrite Hj, Ht. simpl. unfold valid_url in Hv.
  destruct (RouteTs.URL_new w (url b)) as [u|e]; simpl.
  - apply negb_false_iff in Hv. rewrite Hv. reflexivity.
  - reflexivity.
Qed.

Lemma valid_url_inv (parsed : Completion URL) :
  valid_url parsed = true ->
  exists u, parsed = Normal u /\ unsupported_protocol (protocol u) = false.
Proof.
  destruct parsed as [u|e]; simpl; [|discriminate].
  intros H. exists u. split; [reflexivity|]. apply negb_true_iff. exact H.
Qed.

Ltac unfold_js :=
  unfold Part000.analyze, Part000.speed_block, Part000.font_block,
    Part000.image_block, Part000.cta_block, Part000.assign, Part000.push,
    bind, try_catch, call, ret, modify, get_state, lift, throw.

(** When neither the font nor the image analyzer throws, the blocks run to
    the end: every selected analyzer is called once, the scores collected
    are those of the analyzers that returned, an unselected analyzer leaves
    its section alone, an analyzer that returned has its score in its
    section, and one that threw (speed or CTA) has the failure section. *)
Lemma analyze_completes (w : Part000.World) (c : JsVal) (target : string)
      (a0 : Part000.AnalysisResult) :
  (forall e, outcome w c target Font <> Failed e) ->
  (forall e, outcome w c target Image <> Failed e) ->
  exists a,
    Part000.analyze w c target (a0, []) =
      (Normal (NextResponse_json
                 (SuccessBody true a "Analysis completed successfully.") None),
       (a, success_scores (map (outcome w c target) all_kinds)),
       calls_of_run c target)
    /\ Part000.overallScore a = overall (success_scores (map (outcome w c target) all_kinds))
    /\ Part000.r_url a = Part000.r_url a0
    /\ (forall k, outcome w c target k = Skipped -> same_section k a a0)
    /\ (forall k s, outcome w c target k = Success s -> section_score a k = s)
    /\ (forall k e, outcome w c target k = Failed e ->
          section_score a k = 0 /\ length (section_issues a k) = 1%nat).
Proof.
  intros Hf Hi.
  unfold outcome, analyzer_score, selected in Hf, Hi.
  unfold calls_of_run, all_kinds, outcome, analyzer_score, selected. unfold_js. simpl.
  destruct (shouldRun c "speed" || shouldRun c "pageSpeed");
  destruct (shouldRun c "font");
  destruct (shouldRun c "image");
  destruct (shouldRun c "cta");
  destruct (Part000.analyzePageSpeed w target);
  destruct (Part000.analyzeFontUsage w target);
  destruct (Part000.analyzeImageOptimization w target);
  destruct (Part000.analyzeCTA w target);
  try (exfalso; eapply Hf; reflexivity);
  try (exfalso; eapply Hi; reflexivity);
  simpl; (eexists; split; [reflexivity|]);
  (split; [reflexivity|]); (split; [reflexivity|]);
  (split; [intros [] H; simpl in *; try discriminate H; reflexivity|]);
  (split; [intros [] ? H; simpl in *; try discriminate H; try (injection H as <-); reflexivity|]);
  (intros [] ? H; simpl in *; try discriminate H; split; reflexivity).
Qed.

(** When the font or the image analyzer throws, the exception leaves the
    blocks: no response is built and the CTA analyzer is never called. *)
Lemma analyze_aborts (w : Part000.World) (c : JsVal) (target : string)
      (a0 : Part000.AnalysisResult) (e : Thrown) :
  outcome w c target Font = Failed e \/ outcome w c target Image = Failed e ->
  exists e' s t,
    Part000.analyze w c target (a0, []) = (Throw e', s, t)
    /\ ~ In (CallAnalyzeCTA target) t.
Proof.
  unfold outcome, analyzer_score, selected. unfold_js.
  destruct (shouldRun c "speed" || shouldRun c "pageSpeed");
  destruct (shouldRun c "font");
  destruct (shouldRun c "image");
  destruct (Part000.analyzePageSpeed w target);
  destruct (Part000.analyzeFontUsage w target);
  destruct (Part000.analyzeImageOptimization w target);
  intros [H|H]; try discriminate H; simpl;
  (do 3 eexists; split; [reflexivity|]);
  simpl; intros Hin; repeat (destruct Hin as [Hin|Hin]; [discriminate Hin|]); exact Hin.
Qed.

(** *** Failure isolation *)

(** A failure of the page-speed or of the CTA analyzer stays in its own
    section: the run answers 200 with a report, the failed analyzer has
    score 0 and one issue, every analyzer that returned has its score, and
    the overall score is the specification's formula on these outcomes. *)
Lemma caught_failures_are_isolated (w : Part000.World) (request : NextRequest)
      (b : Body) (u : URL) :
  json request = Normal b ->
  truthy (url b) = true ->
  Part000.URL_new w (url b) = Normal u ->
  unsupported_protocol (protocol u) = false ->
  (forall e, outcome w (component b) (href u) Font <> Failed e) ->
  (forall e, outcome w (component b) (href u) Image <> Failed e) ->
  exists a,
    Part000.POST w request =
      (Normal {| body := SuccessBody true a "Analysis completed successfully.";
                 status := 200 |},
       calls_of_run (component b) (href u))
    /\ Part000.overallScore a =
         spec_overallScore (map (outcome w (component b) (href u)) all_kinds)
    /\ (forall k, outcome w (component b) (href u) k = Skipped ->
          same_section k a (Part000.initial_result u))
    /\ (forall k s, outcome w (component b) (href u) k = Success s ->
          section_score a k = s)
    /\ (forall k e, outcome w (component b) (href u) k = Failed e ->
          section_score a k = 0 /\ length (section_issues a k) = 1%nat).
Proof.
  intros Hj Ht Hu Hp Hf Hi.
  destruct (analyze_completes w (component b) (href u) (Part000.initial_result u) Hf Hi)
    as (a & Hrun & Hscore & _ & Hskip & Hok & Hfail).
  exists a. rewrite (POST_valid w request b u Hj Ht Hu Hp), Hrun. simpl.
  repeat split; try assumption.
  - rewrite Hscore. apply overall_spec.
  - apply (Hfail k e H).
  - apply (Hfail k e H).
Qed.

(** A failure of the font or of the image analyzer is not caught by its
    block: the run answers 500 without a report, and the CTA analyzer is
    not called. *)
Lemma uncaught_failure_aborts (w : Part000.World) (request : NextRequest)
      (b : Body) (u : URL) (e : Thrown) :
  json request = Normal b ->
  truthy (url b) = true ->
  Part000.URL_new w (url b) = Normal u ->
  unsupported_protocol (protocol u) = false ->
  outcome w (component b) (href u) Font = Failed e
  \/ outcome w (component b) (href u) Image = Failed e ->
  fst (Part000.POST w request) = Normal internal_server_error
  /\ ~ In (CallAnalyzeCTA (href u)) (snd (Part000.POST w request)).
Proof.
  intros Hj Ht Hu Hp Hfail.
  destruct (analyze_aborts w (component b) (href u) (Part000.initial_result u) e Hfail)
    as (e' & s & t & Hrun & Hcta).
  rewrite (POST_valid w request b u Hj Ht Hu Hp), Hrun. simpl. split.
  - reflexivity.
  - exact Hcta.
Qed.

(** Every report the route returns comes from a run that no exception cut
    short: it was answered 200 after one call to each selected analyzer,
    its overall score is the specification's formula on the outcomes, and
    the section of an analyzer that was not selected is the initial one. *)
Lemma POST_report (w : Part000.World) (request : NextRequest) (b : Body) (u : URL)
      (resp : NextResponse Part000.AnalysisResult)
      (a : Part000.AnalysisResult) (success : bool) (message : string) :
  json request = Normal b ->
  Part000.URL_new w (url b) = Normal u ->
  fst (Part000.POST w request) = Normal resp ->
  body resp = SuccessBody success a message ->
  Part000.POST w request =
    (Normal {| body := SuccessBody true a "Analysis completed successfully.";
               status := 200 |},
     calls_of_run (component b) (href u))
  /\ Part000.overallScore a =
       spec_overallScore (map (outcome w (component b) (href u)) all_kinds)
  /\ (forall k, selected (component b) k = false ->
        same_section k a (Part000.initial_result u)).
Proof.
  intros Hj Hu Hpost Hbody.
  destruct (truthy (url b)) eqn:Ht.
  2:{ destruct (POST_url_required w legacy_world_all_throw request b Hj Ht) as [H _].
      rewrite H in Hpost. injection Hpost as <-. discriminate Hbody. }
  destruct (unsupported_protocol (protocol u)) eqn:Hp.
  { assert (Hv : valid_url (Part000.URL_new w (url b)) = false)
      by (rewrite Hu; simpl; rewrite Hp; reflexivity).
    rewrite (POST_invalid_url w request b Hj Ht Hv) in Hpost.
    injection Hpost as <-. discriminate Hbody. }
  assert (Habort : forall e,
             outcome w (component b) (href u) Font = Failed e
             \/ outcome w (component b) (href u) Image = Failed e -> False).
  { intros e He.
    destruct (uncaught_failure_aborts w request b u e Hj Ht Hu Hp He) as [H _].
    rewrite H in Hpost. injection Hpost as <-. discriminate Hbody. }
  destruct (caught_failures_are_isolated w request b u Hj Ht Hu Hp)
    as (a' & Hrun & Hscore & Hskip & _).
  - intros e He. apply (Habort e). left. exact He.
  - intros e He. apply (Habort e). right. exact He.
  - rewrite Hrun in Hpost. simpl in Hpost. injection Hpost as <-.
    simpl in Hbody. injection Hbody as _ <- _.
    split; [exact Hrun|]. split; [exact Hscore|].
    intros k Hk. apply Hskip. unfold outcome. rewrite Hk. reflexivity.
Qed.


(** The overall score of every report the route returns is the
    specification's formula on the outcomes of that run. *)
Lemma report_overallScore (w : Part000.World) (request : NextRequest) (b : Body)
      (u : URL) (resp : NextResponse Part000.AnalysisResult)
      (a : Part000.AnalysisResult) (success : bool) (message : string) :
  json request = Normal b ->
  Part000.URL_new w (url b) = Normal u ->
  fst (Part000.POST w request) = Normal resp ->
  body resp = SuccessBody success a message ->
  Part000.overallScore a =
    spec_overallScore (map (outcome w (component b) (href u)) all_kinds).
Proof.
  intros Hj Hu Hpost Hbody.
  apply (POST_report w request b u resp a success message Hj Hu Hpost Hbody).
Qed.

(** C1 (the code departs from the claim).  The claim: an analyzer that
    throws yields a failed outcome for its own kind only, its siblings
    still run, and the run still returns a report.  The blocks of the
    page-speed and of the CTA analyzer do this (lemma
    [caught_failures_are_isolated]); those of the font and of the image
    analyzer have no try block.  Here the font analyzer throws and the
    three others would return 80, 90 and 70: the run answers 500
    "Internal server error", without a report, and neither the image nor
    the CTA analyzer is called. *)
Theorem C1_font_failure_aborts_the_run :
  Part000.POST world_font_throws request_example =
    (Normal internal_server_error,
     [CallAnalyzePageSpeed "https://example.com/";
      CallAnalyzeFontUsage "https://example.com/"])
  /\ outcome world_font_throws JUndefined "https://example.com/" Font = Failed boom
  /\ outcome world_font_throws JUndefined "https://example.com/" Speed = Success 80
  /\ outcome world_font_throws JUndefined "https://example.com/" Image = Success 90
  /\ outcome world_font_throws JUndefined "https://example.com/" Cta = Success 70.
Proof. repeat split. Qed.

(** The same run when the analyzers that throw are the two inside try
    blocks: a report, the two failure sections, and the mean of the two
    scores that remain, 60 and 90. *)
Lemma speed_and_cta_failures_keep_the_report :
  exists a,
    Part000.POST world_speed_cta_throw request_example =
      (Normal {| body := SuccessBody true a "Analysis completed successfully.";
                 status := 200 |},
       [CallAnalyzePageSpeed "https://example.com/";
        CallAnalyzeFontUsage "https://example.com/";
        CallAnalyzeImageOptimization "https://example.com/";
        CallAnalyzeCTA "https://example.com/"])
    /\ Part000.pageLoadSpeed a = Part000.pageLoadSpeed_failed
    /\ Part000.ctaAnalysis a = cta_failed
    /\ Part000.fontUsage a = font60
    /\ Part000.imageOptimization a = image90
    /\ Part000.overallScore a = 75.
Proof. eexists. repeat split. Qed.

(** *** The overall score of a run *)

(** The specification's example as a run: filter "all", four analyzers
    returning 80, 60, 90 and 70, overall score 75. *)
Lemma run_example_75 :
  exists a,
    fst (Part000.POST world_all_succeed (request_of example_com (JStr "all") JUndefined)) =
      Normal {| body := SuccessBody true a "Analysis completed successfully.";
                status := 200 |}
    /\ Part000.overallScore a = 75.
Proof. eexists. split; reflexivity. Qed.

(** C2 (the code departs from the claim).  The claim: the overall score of
    the returned report is round(mean of the scores of the analyzers that
    succeeded), and when no analyzer succeeded the score is 0 and a report
    is still returned.  The formula holds for every report the route
    returns (lemma [report_overallScore]; the example with 75 is lemma
    [run_example_75]).  But when every analyzer throws, no report is
    returned: the exception of the font analyzer leaves the handler through
    the outer catch block, in both versions of the route, and the answer
    is 500 "Internal server error". *)
Theorem C2_no_report_when_every_analyzer_fails :
  success_scores (map (outcome world_all_throw JUndefined "https://example.com/") all_kinds) = []
  /\ Part000.POST world_all_throw request_example =
       (Normal internal_server_error,
        [CallAnalyzePageSpeed "https://example.com/";
         CallAnalyzeFontUsage "https://example.com/"])
  /\ RouteTs.POST legacy_world_all_throw request_example =
       (Normal internal_server_error, [CallAnalyzeFontUsage "https://example.com/"]).
Proof. repeat split. Qed.

(** *** The component filter *)

Lemma shouldRun_absent (name : string) : shouldRun JUndefined name = true.
Proof. reflexivity. Qed.

Lemma shouldRun_name (s name : string) :
  s <> "" -> (shouldRun (JStr s) name = true <-> s = "all" \/ s = name).
Proof.
  intros Hs. unfold shouldRun, truthy, strict_eq_str.
  destruct (String.eqb_spec s "") as [->|_]; [congruence|]. simpl.
  rewrite orb_true_iff, !String.eqb_eq. reflexivity.
Qed.





(** *** The shape of the responses *)

(** The analysis blocks of [part_000] end in the success response or in an
    exception. *)
Lemma analyze_shape (w : Part000.World) (c : JsVal) (target : string)
      (s : Part000.Acc) :
  match fst (fst (Part000.analyze w c target s)) with
  | Normal resp =>
      status resp = 200
      /\ exists a, body resp = SuccessBody true a "Analysis completed successfully."
  | Throw _ => True
  end.
Proof.
  unfold Part000.analyze, bind.
  destruct (Part000.speed_block w c target s) as [[[[]|e1] s1] t1]; [|exact I].
  destruct (Part000.font_block w c target s1) as [[[[]|e2] s2] t2]; [|exact I].
  destruct (Part000.image_block w c target s2) as [[[[]|e3] s3] t3]; [|exact I].
  destruct (Part000.cta_block w c target s3) as [[[[]|e4] s4] t4]; [|exact I].
  simpl. split; [reflexivity | eexists; reflexivity].
Qed.

(** The same for [route.ts]. *)
Lemma legacy_analyze_shape (w : RouteTs.World) (c : JsVal) (target : string)
      (s : RouteTs.Acc) :
  match fst (fst (RouteTs.analyze w c target s)) with
  | Normal resp =>
      status resp = 200
      /\ exists a, body resp = SuccessBody true a "Analysis completed successfully."
  | Throw _ => True
  end.
Proof.
  unfold RouteTs.analyze, bind.
  destruct (RouteTs.font_block w c target s) as [[[[]|e2] s2] t2]; [|exact I].
  destruct (RouteTs.image_block w c target s2) as [[[[]|e3] s3] t3]; [|exact I].
  destruct (RouteTs.cta_block w c target s3) as [[[[]|e4] s4] t4]; [|exact I].
  simpl. split; [reflexivity | eexists; reflexivity].
Qed.

(** The clauses of [response_contract], once the response is known. *)
Ltac contract_shape :=
  first [ left; split; [reflexivity | split; [eexists; reflexivity | reflexivity]]
        | right; left; split; reflexivity
        | right; right; left; split; reflexivity
        | right; right; right; split; reflexivity ].

Ltac contract_clause :=
  intros;
  repeat match goal with
         | H : Normal _ = Normal _ |- _ => injection H as <-
         | H : Normal _ = Throw _ |- _ => discriminate H
         | H : Throw _ = Normal _ |- _ => discriminate H
         end;
  try congruence;
  first [ split; reflexivity | left; reflexivity | right; reflexivity | reflexivity ].

Ltac contract_known :=
  eexists; split; [reflexivity|]; simpl;
  split; [contract_shape|];
  split; [contract_clause|];
  split; [contract_clause|];
  split; [contract_clause|contract_clause].

Lemma Part000_response_contract (w : Part000.World) (request : NextRequest) :
  response_contract request (Part000.URL_new w) (Part000.POST w request).
Proof.
  unfold response_contract.
  destruct (json request) as [b|e] eqn:Hj.
  2:{ destruct (POST_unreadable_body w legacy_world_all_throw request e Hj) as [-> _].
      contract_known. }
  destruct (truthy (url b)) eqn:Ht.
  2:{ destruct (POST_url_required w legacy_world_all_throw request b Hj Ht) as [-> _].
      contract_known. }
  destruct (valid_url (Part000.URL_new w (url b))) eqn:Hv.
  2:{ rewrite (POST_invalid_url w request b Hj Ht Hv). contract_known. }
  destruct (valid_url_inv _ Hv) as (u & Hu & Hp).
  rewrite (POST_valid w request b u Hj Ht Hu Hp).
  pose proof (analyze_shape w (component b) (href u) (Part000.initial_result u, [])) as Hs.
  destruct (Part000.analyze w (component b) (href u) (Part000.initial_result u, []))
    as [[[resp|e] s] t]; simpl in Hs |- *.
  - destruct Hs as (Hst & a & Hb). exists resp. split; [reflexivity|].
    rewrite Hst, Hb. simpl.
    split; [contract_shape|].
    split; [contract_clause|].
    split; [contract_clause|].
    split; [contract_clause|contract_clause].
  - contract_known.
Qed.

Lemma RouteTs_response_contract (w : RouteTs.World) (request : NextRequest) :
  response_contract request (RouteTs.URL_new w) (RouteTs.POST w request).
Proof.
  unfold response_contract.
  destruct (json request) as [b|e] eqn:Hj.
  2:{ destruct (POST_unreadable_body world_all_throw w request e Hj) as [_ ->].
      contract_known. }
  destruct (truthy (url b)) eqn:Ht.
  2:{ destruct (POST_url_required world_all_throw w request b Hj Ht) as [_ ->].
      contract_known. }
  destruct (valid_url (RouteTs.URL_new w (url b))) eqn:Hv.
  2:{ rewrite (legacy_POST_invalid_url w request b Hj Ht Hv). contract_known. }
  destruct (valid_url_inv _ Hv) as (u & Hu & Hp).
  rewrite (legacy_POST_valid w request b u Hj Ht Hu Hp).
  pose proof (legacy_analyze_shape w (component b) (href u) (RouteTs.initial_result u, [])) as Hs.
  destruct (RouteTs.analyze w (component b) (href u) (RouteTs.initial_result u, []))
    as [[[resp|e] s] t]; simpl in Hs |- *.
  - destruct Hs as (Hst & a & Hb). exists resp. split; [reflexivity|].
    rewrite Hst, Hb. simpl.
    split; [contract_shape|].
    split; [contract_clause|].
    split; [contract_clause|].
    split; [contract_clause|contract_clause].
  - contract_known.
Qed.


(** *** Which calls a run makes *)

(** A run of [part_000] that answers 200 has called every selected
    analyzer, once each. *)
Lemma POST_200_calls (w : Part000.World) (request : NextRequest) (b : Body) (u : URL)
      (resp : NextResponse Part000.AnalysisResult) :
  json request = Normal b ->
  Part000.URL_new w (url b) = Normal u ->
  fst (Part000.POST w request) = Normal resp ->
  status resp = 200 ->
  snd (Part000.POST w request) = calls_of_run (component b) (href u).
Proof.
  intros Hj Hu Hpost Hst.
  destruct (truthy (url b)) eqn:Ht.
  2:{ destruct (POST_url_required w legacy_world_all_throw request b Hj Ht) as [H _].
      rewrite H in Hpost. injection Hpost as <-. discriminate Hst. }
  destruct (unsupported_protocol (protocol u)) eqn:Hp.
  { assert (Hv : valid_url (Part000.URL_new w (url b)) = false)
      by (rewrite Hu; simpl; rewrite Hp; reflexivity).
    rewrite (POST_invalid_url w request b Hj Ht Hv) in Hpost.
    injection Hpost as <-. discriminate Hst. }
  assert (Habort : forall e,
             outcome w (component b) (href u) Font = Failed e
             \/ outcome w (component b) (href u) Image = Failed e -> False).
  { intros e He.
    destruct (uncaught_failure_aborts w request b u e Hj Ht Hu Hp He) as [H _].
    rewrite H in Hpost. injection Hpost as <-. discriminate Hst. }
  destruct (caught_failures_are_isolated w request b u Hj Ht Hu Hp) as (a & -> & _).
  - intros e He. apply (Habort e). left. exact He.
  - intros e He. apply (Habort e). right. exact He.
  - reflexivity.
Qed.

Lemma selected_in_calls (c : JsVal) (target : string) (k : AnalyzerKind) :
  selected c k = true -> In (call_of k target) (calls_of_run c target).
Proof.
  intros H. unfold calls_of_run. apply in_flat_map. exists k. split.
  - destruct k; simpl; tauto.
  - rewrite H. left. reflexivity.
Qed.

(** The blocks of [route.ts]: a selected analyzer is called; the CTA block
    launches a browser and, unless the launch throws, closes it. *)
Lemma legacy_font_block_calls (w : RouteTs.World) (c : JsVal) (target : string)
      (s : RouteTs.Acc) :
  shouldRun c "font" = true ->
  In (CallAnalyzeFontUsage target) (snd (RouteTs.font_block w c target s)).
Proof.
  intros H. unfold RouteTs.font_block, RouteTs.assign, RouteTs.push, bind, call, modify.
  rewrite H. destruct (RouteTs.analyzeFontUsage w target); simpl; tauto.
Qed.

Lemma legacy_image_block_calls (w : RouteTs.World) (c : JsVal) (target : string)
      (s : RouteTs.Acc) :
  shouldRun c "image" = true ->
  In (CallAnalyzeImageOptimization target) (snd (RouteTs.image_block w c target s)).
Proof.
  intros H. unfold RouteTs.image_block, RouteTs.assign, RouteTs.push, bind, call, modify.
  rewrite H. destruct (RouteTs.analyzeImageOptimization w target); simpl; tauto.
Qed.

Lemma legacy_cta_block_calls (w : RouteTs.World) (c : JsVal) (target : string)
      (s : RouteTs.Acc) :
  shouldRun c "cta" = true ->
  In CallPuppeteerLaunch (snd (RouteTs.cta_block w c target s))
  /\ (forall r, fst (fst (RouteTs.cta_block w c target s)) = Normal r ->
      In CallBrowserClose (snd (RouteTs.cta_block w c target s))).
Proof.
  intros H.
  unfold RouteTs.cta_block, RouteTs.assign, RouteTs.push,
    bind, call, modify, try_catch, try_finally.
  rewrite H.
  destruct (RouteTs.puppeteer_launch w); simpl; [|split; [tauto | discriminate]].
  destruct (RouteTs.browser_newPage w); simpl;
  [destruct (RouteTs.page_setViewport w); simpl;
   [destruct (RouteTs.page_goto w target); simpl;
    [destruct (RouteTs.page_content w) as [html|]; simpl;
     [destruct (RouteTs.analyzeCTA w html); simpl;
      [destruct (RouteTs.page_close w); simpl|]|]|]|]|];
  destruct (RouteTs.browser_close w); simpl;
  (split; [tauto | intros; tauto]).
Qed.

(** A request that [route.ts] answers 200 has called every selected
    analyzer of the first two, and has launched and closed a browser when
    the CTA analysis is selected. *)
Lemma legacy_POST_200_calls (w : RouteTs.World) (request : NextRequest) (b : Body)
      (u : URL) (resp : NextResponse RouteTs.AnalysisResult) :
  json request = Normal b ->
  RouteTs.URL_new w (url b) = Normal u ->
  fst (RouteTs.POST w request) = Normal resp ->
  status resp = 200 ->
  (shouldRun (component b) "font" = true ->
   In (CallAnalyzeFontUsage (href u)) (snd (RouteTs.POST w request)))
  /\ (shouldRun (component b) "image" = true ->
      In (CallAnalyzeImageOptimization (href u)) (snd (RouteTs.POST w request)))
  /\ (shouldRun (component b) "cta" = true ->
      In CallPuppeteerLaunch (snd (RouteTs.POST w request))
      /\ In CallBrowserClose (snd (RouteTs.POST w request))).
Proof.
  intros Hj Hu Hpost Hst.
  destruct (truthy (url b)) eqn:Ht.
  2:{ destruct (POST_url_required world_all_throw w request b Hj Ht) as [_ H].
      rewrite H in Hpost. injection Hpost as <-. discriminate Hst. }
  destruct (unsupported_protocol (protocol u)) eqn:Hp.
  { assert (Hv : valid_url (RouteTs.URL_new w (url b)) = false)
      by (rewrite Hu; simpl; rewrite Hp; reflexivity).
    rewrite (legacy_POST_invalid_url w request b Hj Ht Hv) in Hpost.
    injection Hpost as <-. discriminate Hst. }
  rewrite (legacy_POST_valid w request b u Hj Ht Hu Hp) in Hpost |- *.
  revert Hpost. unfold RouteTs.analyze, bind.
  pose proof (legacy_font_block_calls w (component b) (href u)
                (RouteTs.initial_result u, [])) as Hf.
  destruct (RouteTs.font_block w (component b) (href u) (RouteTs.initial_result u, []))
    as [[[[]|e1] s1] t1]; simpl in Hf |- *;
    [|intros [= <-]; discriminate Hst].
  pose proof (legacy_image_block_calls w (component b) (href u) s1) as Hi.
  destruct (RouteTs.image_block w (component b) (href u) s1)
    as [[[[]|e2] s2] t2]; simpl in Hi |- *;
    [|intros [= <-]; discriminate Hst].
  pose proof (legacy_cta_block_calls w (component b) (href u) s2) as Hc.
  destruct (RouteTs.cta_block w (component b) (href u) s2)
    as [[[[]|e3] s3] t3]; simpl in Hc |- *;
    [|intros [= <-]; discriminate Hst].
  intros _. split; [|split]; intros Hsel.
  - apply in_or_app. left. apply Hf, Hsel.
  - apply in_or_app. right. apply in_or_app. left. apply Hi, Hsel.
  - split.
    + apply in_or_app. right. apply in_or_app. right. apply in_or_app. left.
      apply (Hc Hsel).
    + apply in_or_app. right. apply in_or_app. right. apply in_or_app. left.
      apply (proj2 (Hc Hsel) tt). reflexivity.
Qed.

(** Neither route reads [forceRescan]: what it does depends on the [url]
    and [component] properties only. *)
Lemma POST_reads_url_and_component (w : Part000.World) (w' : RouteTs.World)
      (request1 request2 : NextRequest) (b1 b2 : Body) :
  json request1 = Normal b1 ->
  json request2 = Normal b2 ->
  url b1 = url b2 ->
  component b1 = component b2 ->
  Part000.POST w request2 = Part000.POST w request1
  /\ RouteTs.POST w' request2 = RouteTs.POST w' request1.
Proof.
  intros H1 H2 Hu Hc.
  unfold Part000.POST, Part000.POST_handler, RouteTs.POST, RouteTs.POST_handler,
    run, try_catch, bind, lift.
  rewrite H1, H2, Hu, Hc. split; reflexivity.
Qed.

Lemma contract_no_fromCache {R} (request : NextRequest) (parse : JsVal -> Completion URL)
      (served : Completion (NextResponse R) * list Call) (resp : NextResponse R) :
  response_contract request parse served ->
  fst served = Normal resp ->
  ~ In "fromCache" (body_keys (body resp)) /\ ~ In "analysisId" (body_keys (body resp)).
Proof.
  intros (resp' & Hs & Hshape & _) Hr. rewrite Hs in Hr. injection Hr as ->.
  destruct Hshape as [(_ & _ & ->)|[(_ & ->)|[(_ & ->)|(_ & ->)]]]; simpl;
    split; intros H; repeat (destruct H as [H|H]; [discriminate H|]); exact H.
Qed.

(** *** Validation *)



(** *** The success response *)

(** C4, as stated: a successful submission is answered with the properties
    [success], [analysis], [fromCache] and [analysisId].  It is not: the
    success response of the route has the properties [success], [analysis]
    and [message]. *)
Lemma C4_counterexample :
  exists resp,
    fst (Part000.POST world_all_succeed request_example) = Normal resp
    /\ status resp = 200
    /\ body_keys (body resp) = ["success"; "analysis"; "message"]
    /\ ~ incl spec_success_keys (body_keys (body resp)).
Proof.
  eexists. split; [reflexivity|]. split; [reflexivity|]. split; [reflexivity|].
  intros H. specialize (H "fromCache"). simpl in H.
  assert (Hin : "success" = "fromCache" \/ "analysis" = "fromCache"
                \/ "message" = "fromCache" \/ False) by (apply H; tauto).
  repeat (destruct Hin as [Hin|Hin]; [discriminate Hin|]). exact Hin.
Qed.

(** C4, amended.  Every request is answered, in both versions of the
    route.  A successful submission is answered 200 with [success: true],
    the analysis report and the message "Analysis completed successfully.",
    and with no other property (no [fromCache], no [analysisId]).  A
    missing URL is answered 400 "URL is required", a URL that does not
    parse or has another protocol than http: and https: 400 "Invalid URL
    format", and an internal failure (an unreadable body, an exception that
    leaves the analysis blocks) 500 "Internal server error": an error
    object with a non-success status. *)
Theorem C4_responses (w : Part000.World) (w' : RouteTs.World) (request : NextRequest) :
  response_contract request (Part000.URL_new w) (Part000.POST w request)
  /\ response_contract request (RouteTs.URL_new w') (RouteTs.POST w' request).
Proof.
  split.
  - apply Part000_response_contract.
  - apply RouteTs_response_contract.
Qed.

(** *** Submitting a URL twice *)

(** C3, as stated: the second submission of a URL is served from a cache.
    It is not, in either version of the route: the second submission calls
    the analyzers again (and launches the browser again), and its response
    has no [fromCache] property. *)
Lemma C3_counterexample :
  ~ served_from_cache (Part000.POST world_all_succeed request_example)
                      (Part000.POST world_all_succeed request_example)
  /\ ~ served_from_cache (RouteTs.POST legacy_world_all_succeed request_example)
                         (RouteTs.POST legacy_world_all_succeed request_example)
  /\ snd (Part000.POST world_all_succeed request_example) =
       [CallAnalyzePageSpeed "https://example.com/";
        CallAnalyzeFontUsage "https://example.com/";
        CallAnalyzeImageOptimization "https://example.com/";
        CallAnalyzeCTA "https://example.com/"].
Proof.
  split; [|split].
  - intros (_ & _ & H). discriminate H.
  - intros (_ & _ & H). discriminate H.
  - reflexivity.
Qed.

(** C3, amended.  Neither version of the route has a cache, and neither
    reads [forceRescan].  Two submissions of the same URL (with the same
    component filter, whatever their [forceRescan]) are handled alike: as
    long as the analyzers behave alike, the second is answered as the
    first and makes the same calls; its response has no [fromCache]
    property; and when it is answered 200 it has called every selected
    analyzer again ([route.ts] has launched and closed a browser again for
    the CTA analysis). *)
Theorem C3_resubmission_runs_again (w : Part000.World) (w' : RouteTs.World)
        (request1 request2 : NextRequest) (b1 b2 : Body) :
  json request1 = Normal b1 ->
  json request2 = Normal b2 ->
  url b1 = url b2 ->
  component b1 = component b2 ->
  Part000.POST w request2 = Part000.POST w request1
  /\ RouteTs.POST w' request2 = RouteTs.POST w' request1
  /\ (forall resp, fst (Part000.POST w request2) = Normal resp ->
        ~ In "fromCache" (body_keys (body resp)))
  /\ (forall resp, fst (RouteTs.POST w' request2) = Normal resp ->
        ~ In "fromCache" (body_keys (body resp)))
  /\ (forall resp u,
        fst (Part000.POST w request2) = Normal resp ->
        status resp = 200 ->
        Part000.URL_new w (url b2) = Normal u ->
        snd (Part000.POST w request2) = calls_of_run (component b2) (href u)
        /\ forall k, selected (component b2) k = true ->
                     In (call_of k (href u)) (snd (Part000.POST w request2)))
  /\ (forall resp u,
        fst (RouteTs.POST w' request2) = Normal resp ->
        status resp = 200 ->
        RouteTs.URL_new w' (url b2) = Normal u ->
        (shouldRun (component b2) "font" = true ->
         In (CallAnalyzeFontUsage (href u)) (snd (RouteTs.POST w' request2)))
        /\ (shouldRun (component b2) "image" = true ->
            In (CallAnalyzeImageOptimization (href u)) (snd (RouteTs.POST w' request2)))
        /\ (shouldRun (component b2) "cta" = true ->
            In CallPuppeteerLaunch (snd (RouteTs.POST w' request2))
            /\ In CallBrowserClose (snd (RouteTs.POST w' request2)))).
Proof.
  intros H1 H2 Hu Hc.
  destruct (POST_reads_url_and_component w w' request1 request2 b1 b2 H1 H2 Hu Hc)
    as [Ha Hb].
  split; [exact Ha|]. split; [exact Hb|].
  split; [|split; [|split]].
  - intros resp Hr.
    apply (contract_no_fromCache request2 (Part000.URL_new w) _ resp
             (Part000_response_contract w request2) Hr).
  - intros resp Hr.
    apply (contract_no_fromCache request2 (RouteTs.URL_new w') _ resp
             (RouteTs_response_contract w' request2) Hr).
  - intros resp u Hr Hst Hparse.
    pose proof (POST_200_calls w request2 b2 u resp H2 Hparse Hr Hst) as Hcalls.
    split; [exact Hcalls|].
    intros k Hk. rewrite Hcalls. apply selected_in_calls, Hk.
  - intros resp u Hr Hst Hparse.
    apply (legacy_POST_200_calls w' request2 b2 u resp H2 Hparse Hr Hst).
Qed.

(** C3 amended, at the example: a first submission and a forced second
    one. *)
Lemma C3_resubmission_runs_again_witness :
  Part000.POST world_all_succeed (request_of example_com JUndefined (JBool true)) =
    Part000.POST world_all_succeed request_example
  /\ RouteTs.POST legacy_world_all_succeed (request_of example_com JUndefined (JBool true)) =
    RouteTs.POST legacy_world_all_succeed request_example.
Proof.
  destruct (C3_resubmission_runs_again world_all_succeed legacy_world_all_succeed
              request_example (request_of example_com JUndefined (JBool true))
              {| url := example_com; component := JUndefined; forceRescan := JUndefined |}
              {| url := example_com; component := JUndefined; forceRescan := JBool true |}
              eq_refl eq_refl eq_refl eq_refl) as (Ha & Hb & _).
  split; [exact Ha | exact Hb].
Defined.

(** ** The browser session provider *)







(** The local launch of the same configuration, for the record. *)
Lemma local_launch_example :
  Provider.createPuppeteerBrowser world_remote_down env_no_key no_options false =
    (Normal (Provider.BrowserHandle 1), true,
     [Provider.CallImportPuppeteer; Provider.CallExecutablePath;
      Provider.CallLaunch Provider.local_args (Some "/usr/bin/chromium") true]).
Proof. reflexivity. Qed.

(** The consent-modal option travels as the [launch] parameter. *)
Lemma endpoint_with_consent_blocking :
  Provider.browserWSEndpoint "key-123" true =
    "wss://production-sfo.browserless.io?token=key-123&headless=false&stealth=true&blockAds=true&launch=%7B%22blockConsentModals%22%3Atrue%7D".
Proof. reflexivity. Qed.

(** ** The page *)

Ltac unfold_page :=
  unfold Page.step, Page.handler, Page.handleAnalyze, Page.screenshot_settled,
    Page.analysis_settled, Page.handleEmailSubmit, Page.email_settled,
    Page.handleReset, Page.handleForceRescan, Page.callEmailAPI,
    Page.setAnalysisState, Page.set_pendingEmailRef,
    bind, try_catch, call, ret, modify, get_state, lift, throw.

(** [handleAnalyze] replaces the whole of [analysisState] and sends the
    two requests. *)
Lemma handleAnalyze_resets_state (h : Page.Home) (target : string) (force : bool) :
  Page.analysisState (fst (Page.step h (Page.Analyze target force))) =
    Page.loading_state target
  /\ snd (Page.step h (Page.Analyze target force)) =
       [Page.FetchScreenshot target; Page.FetchAnalyze target force].
Proof. split; reflexivity. Qed.

(** [handleAnalyze] does not touch [pendingEmailRef]. *)
Lemma handleAnalyze_keeps_pending_email (h : Page.Home) (target : string) (force : bool) :
  Page.pendingEmailRef (fst (Page.step h (Page.Analyze target force))) =
    Page.pendingEmailRef h.
Proof. reflexivity. Qed.

(** [handleReset] clears it. *)
Lemma handleReset_clears_pending_email (h : Page.Home) :
  fst (Page.step h Page.Reset) = Page.initial_home.
Proof. reflexivity. Qed.









(** *** The pending email *)



(** An email submitted once the id is known leaves at once and is not
    held. *)
Lemma email_after_id_is_sent_at_once (h : Page.Home) (email : string) :
  truthy (Page.analysisId (Page.analysisState h)) = true ->
  Page.step h (Page.EmailSubmit email) =
    ({| Page.analysisState := Page.with_emailSubmitted (Page.analysisState h);
        Page.pendingEmailRef := Page.pendingEmailRef h |},
     [Page.FetchEmail email (Page.analysisId (Page.analysisState h))]).
Proof. intros Hid. unfold_page. rewrite Hid. reflexivity. Qed.

(** *** A new submission and the pending email *)

(** C8 (the code departs from the claim).  The claim: a new submission
    clears every field of the previous session, the pending email
    included, so that no email of a previous session is sent with the id
    of the new one.  [handleAnalyze] replaces [analysisState] (lemma
    [handleAnalyze_resets_state]) but leaves [pendingEmailRef] as it is
    (lemma [handleAnalyze_keeps_pending_email]); [handleReset] does clear
    it.  Here an email is submitted while the first analysis is pending;
    the analysis settles with a cached report without id, so the email
    stays in the holder; the user asks for a rescan: the holder still has
    the email, [emailSubmitted] is false again, and when the rescan settles
    with the id "id-2" the email of the first session is sent with it. *)
Theorem C8_pending_email_survives_a_new_submission :
  let before :=
    Page.steps Page.initial_home
      [Page.Analyze "https://example.com/" false;
       Page.EmailSubmit "visitor@example.com";
       Page.AnalysisSettled (ok_response cached_without_id);
       Page.ForceRescan] in
  Page.analysisState (fst before) = Page.loading_state "https://example.com/"
  /\ Page.pendingEmailRef (fst before) = Some "visitor@example.com"
  /\ snd before =
       [Page.FetchScreenshot "https://example.com/";
        Page.FetchAnalyze "https://example.com/" false;
        Page.FetchScreenshot "https://example.com/";
        Page.FetchAnalyze "https://example.com/" true]
  /\ snd (Page.step (fst before)
            (Page.AnalysisSettled (ok_response (fresh_with_id "id-2")))) =
       [Page.FetchEmail "visitor@example.com" (JStr "id-2")].
Proof. repeat split. Qed.

(** *** The two screenshot URLs *)

(** When the screenshot settles first, the page shows the preview until
    the analysis settles, and then the URL of the report if it has one. *)
Lemma report_supersedes_earlier_preview (h : Page.Home) (res : JsVal)
      (r : Completion Page.FetchResponse) :
  nullish res = false ->
  truthy (get (js_or (get res "analysis") res) "screenshotUrl") = true ->
  Page.screenshotUrl
    (Page.analysisState
       (fst (Page.step (fst (Page.step h (Page.ScreenshotSettled r)))
                       (Page.AnalysisSettled (ok_response res))))) =
    get (js_or (get res "analysis") res) "screenshotUrl".
Proof.
  intros Hnn Hshot.
  generalize (fst (Page.step h (Page.ScreenshotSettled r))). intros h1.
  unfold Page.step, Page.handler, Page.analysis_settled,
    Page.setAnalysisState, Page.callEmailAPI, Page.prop, ok_response,
    bind, try_catch, call, ret, modify, get_state, lift, throw.
  cbn [Page.ok Page.response_json negb]. rewrite Hnn.
  cbn [Page.pendingEmailRef Page.analysisState].
  destruct (Page.nonempty _ && truthy (get res "analysisId"));
    cbn [fst Page.analysisState Page.with_result Page.screenshotUrl];
    unfold js_or at 1; rewrite Hshot; reflexivity.
Qed.

(** A screenshot that settles with a URL always overwrites the field,
    whatever it held. *)
Lemma screenshot_overwrites (h : Page.Home) (shot : string) :
  shot <> "" ->
  Page.screenshotUrl
    (Page.analysisState
       (fst (Page.step h (Page.ScreenshotSettled (ok_response (screenshot_body shot)))))) =
    JStr shot.
Proof.
  intros Hne. unfold_page. unfold Page.prop, ok_response, screenshot_body, js_or. simpl.
  destruct (String.eqb_spec shot "") as [->|_]; [congruence|]. reflexivity.
Qed.

(** A failed screenshot changes nothing and sends nothing. *)
Lemma screenshot_failure_is_silent (h : Page.Home) (r : Completion Page.FetchResponse) :
  screenshot_failure r ->
  Page.step h (Page.ScreenshotSettled r) = (h, []).
Proof.
  intros Hf. destruct h as [st ref].
  destruct Hf as [e|j|e|v Hv]; unfold_page; unfold Page.prop; simpl;
    try reflexivity.
  rewrite Hv. reflexivity.
Qed.

(** What the page shows of the analysis does not depend on the screenshot
    request: whether and how it settled before, the report, the loading
    flag, the error, the id, the cache flag and the requests sent are the
    same. *)
Lemma report_independent_of_screenshot (h : Page.Home)
      (rs r : Completion Page.FetchResponse) :
  let direct := Page.step h (Page.AnalysisSettled r) in
  let after := Page.step (fst (Page.step h (Page.ScreenshotSettled rs)))
                         (Page.AnalysisSettled r) in
  Page.result (Page.analysisState (fst after)) = Page.result (Page.analysisState (fst direct))
  /\ Page.isLoading (Page.analysisState (fst after)) =
       Page.isLoading (Page.analysisState (fst direct))
  /\ Page.error (Page.analysisState (fst after)) = Page.error (Page.analysisState (fst direct))
  /\ Page.analysisId (Page.analysisState (fst after)) =
       Page.analysisId (Page.analysisState (fst direct))
  /\ Page.fromCache (Page.analysisState (fst after)) =
       Page.fromCache (Page.analysisState (fst direct))
  /\ snd after = snd direct.
Proof.
  destruct h as [st ref]. unfold_page. unfold Page.prop.
  destruct rs as [[[] [vs|es]]|es]; simpl;
    try (destruct (nullish vs); simpl);
    destruct r as [[[] [v|e]]|e]; simpl;
    try (destruct (nullish v); simpl);
    try (destruct (Page.nonempty ref && truthy (get v "analysisId")); simpl);
    repeat split; reflexivity.
Qed.

(** C9 (the code departs from the claim).  The claim: when both the
    screenshot service and the analysis deliver a screenshot URL, the final
    [screenshotUrl] is that of the analysis, in whichever order the two
    settle; and a screenshot failure neither fails nor delays the report.
    The second half holds (lemmas [screenshot_failure_is_silent] and
    [report_independent_of_screenshot]), and so does the first when the
    screenshot settles first (lemma [report_supersedes_earlier_preview]).
    But when the screenshot settles after the analysis, its callback
    overwrites the field: the page ends with the preview, not with the URL
    of the report. *)
Theorem C9_late_screenshot_overwrites_the_report_s_url :
  Page.screenshotUrl
    (Page.analysisState
       (fst (Page.steps Page.initial_home
               [Page.Analyze "https://example.com/" false;
                Page.AnalysisSettled (ok_response (analysis_with_screenshot "report.png"));
                Page.ScreenshotSettled (ok_response (screenshot_body "preview.png"))]))) =
    JStr "preview.png"
  /\ Page.screenshotUrl
       (Page.analysisState
          (fst (Page.steps Page.initial_home
                  [Page.Analyze "https://example.com/" false;
                   Page.ScreenshotSettled (ok_response (screenshot_body "preview.png"));
                   Page.AnalysisSettled (ok_response (analysis_with_screenshot "report.png"))]))) =
     JStr "report.png".
Proof. split; reflexivity. Qed.

(** *** The page in front of this route *)

(** Whatever success response the route sends, the page reads no analysis
    id and no cache flag from it, and an email that is held stays held: no
    email request leaves. *)
Lemma page_reads_no_id_from_route {R} (enc : R -> JsVal) (resp : NextResponse R)
      (a : R) (h : Page.Home) :
  status resp = 200 ->
  body resp = SuccessBody true a "Analysis completed successfully." ->
  let after := Page.step h (Page.AnalysisSettled (Normal (received enc resp))) in
  Page.analysisId (Page.analysisState (fst after)) = JNull
  /\ Page.fromCache (Page.analysisState (fst after)) = JBool false
  /\ Page.isLoading (Page.analysisState (fst after)) = false
  /\ Page.pendingEmailRef (fst after) = Page.pendingEmailRef h
  /\ snd after = [].
Proof.
  intros Hst Hb. destruct resp as [b st]. simpl in Hst, Hb. subst b st.
  unfold_page. unfold Page.prop, received, Page.nonempty. simpl.
  rewrite andb_false_r. repeat split; reflexivity.
Qed.

(** *** A detail of [route.ts] *)

(** In [route.ts], [page.close()] is the last statement of the try block:
    when it throws, the catch block replaces the CTA section by the failure
    section, but the CTA score is already in [scores] and still counts:
    round((60 + 90 + 70) / 3) = 73. *)
Lemma legacy_close_failure_keeps_the_score :
  exists a,
    RouteTs.POST legacy_world_close_throws request_example =
      (Normal {| body := SuccessBody true a "Analysis completed successfully.";
                 status := 200 |},
       [CallAnalyzeFontUsage "https://example.com/";
        CallAnalyzeImageOptimization "https://example.com/";
        CallPuppeteerLaunch; CallNewPage; CallSetViewport 1920 1080;
        CallGoto "https://example.com/"; CallContent;
        CallAnalyzeCTA "<html></html>"; CallPageClose; CallBrowserClose])
    /\ RouteTs.ctaAnalysis a = cta_failed
    /\ RouteTs.overallScore a = 73.
Proof. eexists. repeat split. Qed.

